(** * binaryToObject/pe.cpp: the PE/COFF object writer

    A shallow embedding of [src/binaryToObject/pe.cpp] (Avian's
    binaryToObject tool) and the properties of the object file it emits.

    Conventions.
    - C integers are [Z]; every conversion to a fixed-width type is written
      out ([to_uint32], [to_uint16], [to_int32], ...).  [unsigned] and [int]
      are 32 bits wide.
    - A byte ([uint8_t]) is a [Z] in [0, 256); the sink is the list of the
      bytes appended to it so far.
    - A [const char*] is a [string]: the characters stored at the pointer,
      the terminating NUL being implicit at its end.  An embedded NUL
      character ends the C string early, as it does in memory.
    - The object representation of the packed structs depends on the byte
      order of the host that runs the tool; it is a parameter ([endianness])
      of everything that touches bytes.
    - stderr is the list of the [fprintf] calls made on it. *)

From Stdlib Require Import ZArith String Ascii List Bool Lia.
Import ListNotations.
Open Scope Z_scope.

(** ** Fixed-width integers *)

Module CInt.

Definition to_unsigned (bits v : Z) : Z := v mod 2 ^ bits.

Definition to_signed (bits v : Z) : Z :=
  (v + 2 ^ (bits - 1)) mod 2 ^ bits - 2 ^ (bits - 1).

Definition to_uint8 : Z -> Z := to_unsigned 8.
Definition to_uint16 : Z -> Z := to_unsigned 16.
Definition to_uint32 : Z -> Z := to_unsigned 32.
Definition to_int16 : Z -> Z := to_signed 16.
Definition to_int32 : Z -> Z := to_signed 32.

Definition UINT_MAX : Z := 4294967295.

End CInt.
Export CInt.

(** ** Constants of the format (the #defines of the source) *)

Definition IMAGE_SIZEOF_SHORT_NAME : nat := 8.

Definition IMAGE_FILE_RELOCS_STRIPPED : Z := 1.
Definition IMAGE_FILE_LINE_NUMS_STRIPPED : Z := 4.
Definition IMAGE_FILE_MACHINE_AMD64 : Z := 0x8664.
Definition IMAGE_FILE_MACHINE_I386 : Z := 0x014c.
Definition IMAGE_FILE_32BIT_MACHINE : Z := 256.

Definition IMAGE_SCN_ALIGN_1BYTES : Z := 0x100000.
Definition IMAGE_SCN_ALIGN_2BYTES : Z := 0x200000.
Definition IMAGE_SCN_ALIGN_4BYTES : Z := 0x300000.
Definition IMAGE_SCN_ALIGN_8BYTES : Z := 0x400000.
Definition IMAGE_SCN_MEM_EXECUTE : Z := 0x20000000.
Definition IMAGE_SCN_MEM_READ : Z := 0x40000000.
Definition IMAGE_SCN_MEM_WRITE : Z := 0x80000000.
Definition IMAGE_SCN_CNT_CODE : Z := 32.

(** ** The structs *)

Record IMAGE_FILE_HEADER := {
  Machine : Z;                (* uint16_t *)
  NumberOfSections : Z;       (* uint16_t *)
  TimeDateStamp : Z;          (* uint32_t *)
  PointerToSymbolTable : Z;   (* uint32_t *)
  NumberOfSymbols : Z;        (* uint32_t *)
  SizeOfOptionalHeader : Z;   (* uint16_t *)
  Characteristics : Z         (* uint16_t *)
}.

Record IMAGE_SECTION_HEADER := {
  Name : list Z;              (* uint8_t [IMAGE_SIZEOF_SHORT_NAME] *)
  Misc : Z;                   (* union of two uint32_t *)
  VirtualAddress : Z;         (* uint32_t *)
  SizeOfRawData : Z;          (* uint32_t *)
  PointerToRawData : Z;       (* uint32_t *)
  PointerToRelocations : Z;   (* uint32_t *)
  PointerToLinenumbers : Z;   (* uint32_t *)
  NumberOfRelocations : Z;    (* uint16_t *)
  NumberOfLinenumbers : Z;    (* uint16_t *)
  SectionCharacteristics : Z  (* uint32_t Characteristics *)
}.

Record IMAGE_SYMBOL := {
  Short : Z;                  (* uint32_t N.Name.Short *)
  Long : Z;                   (* uint32_t N.Name.Long *)
  Value : Z;                  (* uint32_t *)
  SectionNumber : Z;          (* int16_t *)
  Type_ : Z;                  (* uint16_t Type *)
  StorageClass : Z;           (* uint8_t *)
  NumberOfAuxSymbols : Z      (* uint8_t *)
}.

Definition sizeof_IMAGE_FILE_HEADER : Z := 20.
Definition sizeof_IMAGE_SECTION_HEADER : Z := 40.
Definition sizeof_IMAGE_SYMBOL : Z := 18.

(** ** pad *)

Definition pad (n : Z) : Z :=
  Z.land (to_uint32 (n + (4 - 1))) (to_uint32 (Z.lnot (4 - 1))).

(** ** Object representation of integers *)

Inductive endianness := LittleEndian | BigEndian.

Fixpoint le_bytes (width : nat) (v : Z) : list Z :=
  match width with
  | O => []
  | S w => v mod 256 :: le_bytes w (v / 256)
  end.

Fixpoint le_value (bs : list Z) : Z :=
  match bs with
  | [] => 0
  | b :: bs' => b + 256 * le_value bs'
  end.

Definition encode (host : endianness) (width : nat) (v : Z) : list Z :=
  match host with
  | LittleEndian => le_bytes width v
  | BigEndian => rev (le_bytes width v)
  end.

Definition decode (host : endianness) (bs : list Z) : Z :=
  match host with
  | LittleEndian => le_value bs
  | BigEndian => le_value (rev bs)
  end.

(** The storage class of an external symbol in COFF; the source writes the
    literal. *)
Definition IMAGE_SYM_CLASS_EXTERNAL : Z := 2.

(** The alignment field of the section characteristics. *)
Definition IMAGE_SCN_ALIGN_MASK : Z := 0x00F00000.

(** ** C strings *)

Definition uint8_of_char (c : ascii) : Z := Z.of_N (N_of_ascii c).

Definition is_nul (c : ascii) : bool := Ascii.eqb c Ascii.zero.

(** Number of characters before the terminating NUL. *)
Fixpoint strlen (s : string) : nat :=
  match s with
  | EmptyString => O
  | String c s' => if is_nul c then O else S (strlen s')
  end.

(** The bytes stored at the pointer: the characters, then the terminator. *)
Fixpoint c_str (s : string) : list Z :=
  match s with
  | EmptyString => [0]
  | String c s' => uint8_of_char c :: c_str s'
  end.

(** What [strncpy] stores in the first [n] bytes of its destination: the
    characters of [src] up to its terminator, then NULs up to [n] bytes; no
    terminator when [src] has [n] characters or more. *)
Fixpoint strncpy_bytes (src : string) (n : nat) : list Z :=
  match n with
  | O => []
  | S n' =>
      match src with
      | EmptyString => repeat 0 (S n')
      | String c src' =>
          if is_nul c then repeat 0 (S n')
          else uint8_of_char c :: strncpy_bytes src' n'
      end
  end.

Definition strncpy (dest : list Z) (src : string) (n : nat) : list Z :=
  strncpy_bytes src n ++ skipn n dest.

(** ** The sink *)

Definition OutputStream := list Z.

(** Modelled from the spec: [OutputStream::writeChunk] is declared in
    tools.h, which is not part of the sources; it appends exactly the
    [n] bytes found at the pointer. *)
Definition writeChunk (out : OutputStream) (bytes : list Z) (n : Z)
  : OutputStream :=
  out ++ firstn (Z.to_nat n) bytes.

(** Modelled from the spec: [OutputStream::writeRepeat] is declared in
    tools.h, which is not part of the sources; it appends [count] copies of
    the byte. *)
Definition writeRepeat (out : OutputStream) (byte : Z) (count : Z)
  : OutputStream :=
  out ++ repeat (to_uint8 byte) (Z.to_nat count).

(** The bytes a call appended to the sink. *)
Definition emitted (before after : OutputStream) : list Z :=
  skipn (length before) after.

Definition slice (off w : nat) (bs : list Z) : list Z :=
  firstn w (skipn off bs).

(** ** Field updates used by the source *)

Definition with_Name (h : IMAGE_SECTION_HEADER) (name : list Z)
  : IMAGE_SECTION_HEADER :=
  {| Name := name;
     Misc := Misc h;
     VirtualAddress := VirtualAddress h;
     SizeOfRawData := SizeOfRawData h;
     PointerToRawData := PointerToRawData h;
     PointerToRelocations := PointerToRelocations h;
     PointerToLinenumbers := PointerToLinenumbers h;
     NumberOfRelocations := NumberOfRelocations h;
     NumberOfLinenumbers := NumberOfLinenumbers h;
     SectionCharacteristics := SectionCharacteristics h |}.

Definition with_Long (s : IMAGE_SYMBOL) (v : Z) : IMAGE_SYMBOL :=
  {| Short := Short s;
     Long := v;
     Value := Value s;
     SectionNumber := SectionNumber s;
     Type_ := Type_ s;
     StorageClass := StorageClass s;
     NumberOfAuxSymbols := NumberOfAuxSymbols s |}.

(** ** writeObject *)

Section Host.

Variable host : endianness.

(** [writeChunk(&s, sizeof(s))] reads the object representation of a packed
    struct: its fields in declaration order, without gaps. *)
Definition bytes_of_IMAGE_FILE_HEADER (h : IMAGE_FILE_HEADER) : list Z :=
  encode host 2 (Machine h) ++
  encode host 2 (NumberOfSections h) ++
  encode host 4 (TimeDateStamp h) ++
  encode host 4 (PointerToSymbolTable h) ++
  encode host 4 (NumberOfSymbols h) ++
  encode host 2 (SizeOfOptionalHeader h) ++
  encode host 2 (Characteristics h).

Definition bytes_of_IMAGE_SECTION_HEADER (h : IMAGE_SECTION_HEADER) : list Z :=
  firstn IMAGE_SIZEOF_SHORT_NAME (Name h) ++
  encode host 4 (Misc h) ++
  encode host 4 (VirtualAddress h) ++
  encode host 4 (SizeOfRawData h) ++
  encode host 4 (PointerToRawData h) ++
  encode host 4 (PointerToRelocations h) ++
  encode host 4 (PointerToLinenumbers h) ++
  encode host 2 (NumberOfRelocations h) ++
  encode host 2 (NumberOfLinenumbers h) ++
  encode host 4 (SectionCharacteristics h).

Definition bytes_of_IMAGE_SYMBOL (s : IMAGE_SYMBOL) : list Z :=
  encode host 4 (Short s) ++
  encode host 4 (Long s) ++
  encode host 4 (Value s) ++
  encode host 2 (SectionNumber s) ++
  encode host 2 (Type_ s) ++
  encode host 1 (StorageClass s) ++
  encode host 1 (NumberOfAuxSymbols s).

(** The locals of [writeObject], each as a function of the parameters it is
    computed from. *)

Definition sectionCount : Z := 1.
Definition symbolCount : Z := 2.
Definition sectionNumber : Z := 1.

Definition startNameLength (startName : string) : Z :=
  to_uint32 (Z.of_nat (strlen startName) + 1).

Definition endNameLength (endName : string) : Z :=
  to_uint32 (Z.of_nat (strlen endName) + 1).

Definition startNameOffset : Z := 4.

Definition endNameOffset (startName : string) : Z :=
  to_uint32 (startNameOffset + startNameLength startName).

Definition fileHeader (size machine machineMask : Z) : IMAGE_FILE_HEADER :=
  {| Machine := to_uint16 machine;
     NumberOfSections := to_uint16 sectionCount;
     TimeDateStamp := 0;
     PointerToSymbolTable :=
       to_uint32 (sizeof_IMAGE_FILE_HEADER
                  + sizeof_IMAGE_SECTION_HEADER
                  + pad size);
     NumberOfSymbols := to_uint32 symbolCount;
     SizeOfOptionalHeader := 0;
     Characteristics :=
       to_uint16 (Z.lor (Z.lor IMAGE_FILE_RELOCS_STRIPPED
                               IMAGE_FILE_LINE_NUMS_STRIPPED)
                        machineMask) |}.

Definition sectionHeader (size : Z) (sectionName : string) (sectionMask : Z)
  : IMAGE_SECTION_HEADER :=
  let sectionHeader :=
    {| Name := repeat 0 IMAGE_SIZEOF_SHORT_NAME;  (* the initializer [""] *)
       Misc := 0;
       VirtualAddress := 0;
       SizeOfRawData := pad size;
       PointerToRawData :=
         to_uint32 (sizeof_IMAGE_FILE_HEADER + sizeof_IMAGE_SECTION_HEADER);
       PointerToRelocations := 0;
       PointerToLinenumbers := 0;
       NumberOfRelocations := 0;
       NumberOfLinenumbers := 0;
       SectionCharacteristics := to_uint32 sectionMask |} in
  with_Name sectionHeader
    (strncpy (Name sectionHeader) sectionName IMAGE_SIZEOF_SHORT_NAME).

Definition startSymbol : IMAGE_SYMBOL :=
  let startSymbol :=
    {| Short := 0;
       Long := 0;
       Value := 0;
       SectionNumber := to_int16 sectionNumber;
       Type_ := 0;
       StorageClass := 2;
       NumberOfAuxSymbols := 0 |} in
  with_Long startSymbol startNameOffset.

Definition endSymbol (size : Z) (startName : string) : IMAGE_SYMBOL :=
  let endSymbol :=
    {| Short := 0;
       Long := 0;
       Value := size;
       SectionNumber := to_int16 sectionNumber;
       Type_ := 0;
       StorageClass := 2;
       NumberOfAuxSymbols := 0 |} in
  with_Long endSymbol (endNameOffset startName).

Definition symbolTableSize (startName endName : string) : Z :=
  to_uint32 (endNameOffset startName + endNameLength endName).

(** [size] is the [unsigned] parameter; [data] is the memory at the pointer. *)
Definition writeObject (data : list Z) (size : Z) (out : OutputStream)
    (startName endName sectionName : string)
    (machine machineMask sectionMask : Z) : OutputStream :=
  let out := writeChunk out
               (bytes_of_IMAGE_FILE_HEADER (fileHeader size machine machineMask))
               sizeof_IMAGE_FILE_HEADER in
  let out := writeChunk out
               (bytes_of_IMAGE_SECTION_HEADER
                  (sectionHeader size sectionName sectionMask))
               sizeof_IMAGE_SECTION_HEADER in
  let out := writeChunk out data size in
  let out := writeRepeat out 0 (to_uint32 (pad size - size)) in
  let out := writeChunk out (bytes_of_IMAGE_SYMBOL startSymbol)
               sizeof_IMAGE_SYMBOL in
  let out := writeChunk out (bytes_of_IMAGE_SYMBOL (endSymbol size startName))
               sizeof_IMAGE_SYMBOL in
  let out := writeChunk out
               (encode host 4 (symbolTableSize startName endName)) 4 in
  let out := writeChunk out (c_str startName) (startNameLength startName) in
  writeChunk out (c_str endName) (endNameLength endName).

End Host.

(** ** WindowsPlatform<BytesPerWord>::PEObjectWriter::write *)

(** A call [fprintf(stderr, format, arg)]; the rendering of the format is the
    C library's. *)
Inductive diagnostic := fprintf_stderr (format : string) (arg : Z).

Definition newline : string := String (ascii_of_nat 10) EmptyString.

Section WindowsPlatform.

Variable host : endianness.

(** The template parameter. *)
Variable BytesPerWord : Z.

(** [ObjectWriter::Writable] and [ObjectWriter::Executable], enumerators
    declared in tools.h, which is not part of the sources. *)
Variables Writable Executable : Z.

(** [size] is the [size_t] parameter; the call to [writeObject] converts it
    to [unsigned].  The result is the returned flag, the sink and what was
    sent to stderr.  [sectionMask] is an [int]: [IMAGE_SCN_MEM_WRITE] does
    not fit [int], so the two branches that use it compute in [unsigned]
    and convert back. *)
Definition write (data : list Z) (size : Z) (out : OutputStream)
    (stderr : list diagnostic) (startName endName : string)
    (alignment accessFlags : Z) : bool * OutputStream * list diagnostic :=
  let '(machine, machineMask) :=
    if BytesPerWord =? 8
    then (IMAGE_FILE_MACHINE_AMD64, 0)
    else (IMAGE_FILE_MACHINE_I386, IMAGE_FILE_32BIT_MACHINE) in
  let switch :=
    match alignment with
    | 0 | 1 => Some IMAGE_SCN_ALIGN_1BYTES
    | 2 => Some IMAGE_SCN_ALIGN_2BYTES
    | 4 => Some IMAGE_SCN_ALIGN_4BYTES
    | 8 => Some IMAGE_SCN_ALIGN_8BYTES
    | _ => None
    end in
  match switch with
  | None =>
      (false, out,
       stderr ++ [fprintf_stderr ("unsupported alignment: %d" ++ newline)
                                 alignment])
  | Some sectionMask =>
      let sectionMask := to_int32 (Z.lor sectionMask IMAGE_SCN_MEM_READ) in
      let '(sectionName, sectionMask) :=
        if negb (Z.land accessFlags Writable =? 0) then
          if negb (Z.land accessFlags Executable =? 0) then
            (".rwx"%string,
             to_int32 (Z.lor (to_uint32 sectionMask)
                             (Z.lor (Z.lor IMAGE_SCN_MEM_WRITE
                                           IMAGE_SCN_MEM_EXECUTE)
                                    IMAGE_SCN_CNT_CODE)))
          else
            (".data"%string,
             to_int32 (Z.lor (to_uint32 sectionMask) IMAGE_SCN_MEM_WRITE))
        else
          (".text"%string,
           to_int32 (Z.lor sectionMask
                           (Z.lor IMAGE_SCN_MEM_EXECUTE IMAGE_SCN_CNT_CODE))) in
      (true,
       writeObject host data (to_uint32 size) out startName endName
                   sectionName machine machineMask sectionMask,
       stderr)
  end.

End WindowsPlatform.

Definition windows32Platform_write host := write host 4.
Definition windows64Platform_write host := write host 8.

(** ** Reading an object file back

    The reader's side: the fields of the three structs, found at their
    offsets in a byte sequence. *)

Section Reader.

Variable host : endianness.

Definition field (off w : nat) (bs : list Z) : Z :=
  decode host (slice off w bs).

Definition parse_IMAGE_FILE_HEADER (bs : list Z) : IMAGE_FILE_HEADER :=
  {| Machine := field 0 2 bs;
     NumberOfSections := field 2 2 bs;
     TimeDateStamp := field 4 4 bs;
     PointerToSymbolTable := field 8 4 bs;
     NumberOfSymbols := field 12 4 bs;
     SizeOfOptionalHeader := field 16 2 bs;
     Characteristics := field 18 2 bs |}.

Definition parse_IMAGE_SECTION_HEADER (bs : list Z) : IMAGE_SECTION_HEADER :=
  {| Name := slice 0 IMAGE_SIZEOF_SHORT_NAME bs;
     Misc := field 8 4 bs;
     VirtualAddress := field 12 4 bs;
     SizeOfRawData := field 16 4 bs;
     PointerToRawData := field 20 4 bs;
     PointerToRelocations := field 24 4 bs;
     PointerToLinenumbers := field 28 4 bs;
     NumberOfRelocations := field 32 2 bs;
     NumberOfLinenumbers := field 34 2 bs;
     SectionCharacteristics := field 36 4 bs |}.

Definition parse_IMAGE_SYMBOL (bs : list Z) : IMAGE_SYMBOL :=
  {| Short := field 0 4 bs;
     Long := field 4 4 bs;
     Value := field 8 4 bs;
     SectionNumber := to_int16 (field 12 2 bs);
     Type_ := field 14 2 bs;
     StorageClass := field 16 1 bs;
     NumberOfAuxSymbols := field 17 1 bs |}.

End Reader.

(** Fields within the range of their C type. *)

Record wf_IMAGE_FILE_HEADER (h : IMAGE_FILE_HEADER) : Prop := {
  wf_Machine : 0 <= Machine h < 2 ^ 16;
  wf_NumberOfSections : 0 <= NumberOfSections h < 2 ^ 16;
  wf_TimeDateStamp : 0 <= TimeDateStamp h < 2 ^ 32;
  wf_PointerToSymbolTable : 0 <= PointerToSymbolTable h < 2 ^ 32;
  wf_NumberOfSymbols : 0 <= NumberOfSymbols h < 2 ^ 32;
  wf_SizeOfOptionalHeader : 0 <= SizeOfOptionalHeader h < 2 ^ 16;
  wf_Characteristics : 0 <= Characteristics h < 2 ^ 16
}.

Record wf_IMAGE_SECTION_HEADER (h : IMAGE_SECTION_HEADER) : Prop := {
  wf_Name : length (Name h) = IMAGE_SIZEOF_SHORT_NAME;
  wf_Misc : 0 <= Misc h < 2 ^ 32;
  wf_VirtualAddress : 0 <= VirtualAddress h < 2 ^ 32;
  wf_SizeOfRawData : 0 <= SizeOfRawData h < 2 ^ 32;
  wf_PointerToRawData : 0 <= PointerToRawData h < 2 ^ 32;
  wf_PointerToRelocations : 0 <= PointerToRelocations h < 2 ^ 32;
  wf_PointerToLinenumbers : 0 <= PointerToLinenumbers h < 2 ^ 32;
  wf_NumberOfRelocations : 0 <= NumberOfRelocations h < 2 ^ 16;
  wf_NumberOfLinenumbers : 0 <= NumberOfLinenumbers h < 2 ^ 16;
  wf_SectionCharacteristics : 0 <= SectionCharacteristics h < 2 ^ 32
}.

Record wf_IMAGE_SYMBOL (s : IMAGE_SYMBOL) : Prop := {
  wf_Short : 0 <= Short s < 2 ^ 32;
  wf_Long : 0 <= Long s < 2 ^ 32;
  wf_Value : 0 <= Value s < 2 ^ 32;
  wf_SectionNumber : - 2 ^ 15 <= SectionNumber s < 2 ^ 15;
  wf_Type : 0 <= Type_ s < 2 ^ 16;
  wf_StorageClass : 0 <= StorageClass s < 2 ^ 8;
  wf_NumberOfAuxSymbols : 0 <= NumberOfAuxSymbols s < 2 ^ 8
}.

(** ** The characters of a C string *)

Fixpoint c_chars (s : string) : list Z :=
  match s with
  | EmptyString => []
  | String c s' => if is_nul c then [] else uint8_of_char c :: c_chars s'
  end.

(** A string of [n] copies of one character. *)
Fixpoint nchars (n : nat) (c : ascii) : string :=
  match n with
  | O => EmptyString
  | S n' => String c (nchars n' c)
  end.

(** Number of padding bytes. *)
Definition padding_count (n : Z) : nat := Z.to_nat (to_uint32 (pad n - n)).

(** Where the reader finds each part of the object. *)

Definition section_header_position : nat := 20.
Definition raw_data_position : nat := 60.

Definition symbol_table_position (size : Z) : nat :=
  (raw_data_position + Z.to_nat size + padding_count size)%nat.

Definition string_table_position (size : Z) : nat :=
  (symbol_table_position size + 18 + 18)%nat.

(** ** The result of [write] *)

Definition returned (r : bool * OutputStream * list diagnostic) : bool :=
  fst (fst r).

Definition sink (r : bool * OutputStream * list diagnostic) : OutputStream :=
  snd (fst r).

Definition diagnostics (r : bool * OutputStream * list diagnostic)
  : list diagnostic :=
  snd r.

(** The arguments [write] hands to [writeObject], by the branch taken. *)

Definition selected_machine (BytesPerWord : Z) : Z :=
  if BytesPerWord =? 8 then IMAGE_FILE_MACHINE_AMD64
  else IMAGE_FILE_MACHINE_I386.

Definition selected_machineMask (BytesPerWord : Z) : Z :=
  if BytesPerWord =? 8 then 0 else IMAGE_FILE_32BIT_MACHINE.

Definition has_flag (accessFlags flag : Z) : bool :=
  negb (Z.land accessFlags flag =? 0).

Definition selected_sectionName (Writable Executable accessFlags : Z)
  : string :=
  if has_flag accessFlags Writable then
    if has_flag accessFlags Executable then ".rwx" else ".data"
  else ".text".

(** The alignment class by the specification's table: 0 or 1 -> 1 byte,
    2 -> 2 bytes, 4 -> 4 bytes, 8 -> 8 bytes. *)
Definition alignment_class (alignment : Z) : Z :=
  if (alignment =? 0) || (alignment =? 1) then IMAGE_SCN_ALIGN_1BYTES
  else if alignment =? 2 then IMAGE_SCN_ALIGN_2BYTES
  else if alignment =? 4 then IMAGE_SCN_ALIGN_4BYTES
  else IMAGE_SCN_ALIGN_8BYTES.

(** The section characteristics by the specification's table, as a 32-bit
    mask. *)
Definition selected_characteristics
    (Writable Executable alignment accessFlags : Z) : Z :=
  Z.lor (Z.lor (alignment_class alignment) IMAGE_SCN_MEM_READ)
    (if has_flag accessFlags Writable then
       if has_flag accessFlags Executable then
         Z.lor (Z.lor IMAGE_SCN_MEM_WRITE IMAGE_SCN_MEM_EXECUTE)
               IMAGE_SCN_CNT_CODE
       else IMAGE_SCN_MEM_WRITE
     else Z.lor IMAGE_SCN_MEM_EXECUTE IMAGE_SCN_CNT_CODE).

Definition supported_alignments : list Z := [0; 1; 2; 4; 8].

Definition unsupported_alignment (alignment : Z) : diagnostic :=
  fprintf_stderr ("unsupported alignment: %d" ++ newline) alignment.

(** A name of [UINT_MAX] characters: [strlen(name) + 1] does not fit
    [unsigned]. *)
Definition oversized_name : string := nchars (Z.to_nat UINT_MAX) "a".

(** A blob of [UINT_MAX - 62] bytes. *)
Definition oversized_blob : list Z := repeat 170 (Z.to_nat (UINT_MAX - 62)).

(** ** Following the pointers of an object

    What a linker does with an object file: the file header gives the
    position and the length of the symbol table, the string table follows
    the symbol table, a symbol whose short-name word is 0 has its name at
    the offset [Long] of the string table, and the section header gives the
    position and the size of the section's raw data. *)

(** The C string that starts a byte sequence. *)
Fixpoint read_c_string (bs : list Z) : list Z :=
  match bs with
  | [] => []
  | b :: bs' => if b =? 0 then [] else b :: read_c_string bs'
  end.

Section Linker.

Variable host : endianness.

Definition symbol_table_of (object : list Z) : list Z :=
  skipn (Z.to_nat (PointerToSymbolTable (parse_IMAGE_FILE_HEADER host object)))
        object.

Definition symbol_of (object : list Z) (i : nat) : IMAGE_SYMBOL :=
  parse_IMAGE_SYMBOL host (skipn (18 * i) (symbol_table_of object)).

Definition string_table_of (object : list Z) : list Z :=
  skipn (18 * Z.to_nat (NumberOfSymbols (parse_IMAGE_FILE_HEADER host object)))
        (symbol_table_of object).

Definition symbol_name (object : list Z) (i : nat) : list Z :=
  read_c_string
    (skipn (Z.to_nat (Long (symbol_of object i))) (string_table_of object)).

Definition section_raw_data (object : list Z) : list Z :=
  let section_header :=
    parse_IMAGE_SECTION_HEADER host (skipn section_header_position object) in
  slice (Z.to_nat (PointerToRawData section_header))
        (Z.to_nat (SizeOfRawData section_header)) object.

(** The bytes of the section from symbol [i] up to symbol [j]. *)
Definition bytes_between (object : list Z) (i j : nat) : list Z :=
  slice (Z.to_nat (Value (symbol_of object i)))
        (Z.to_nat (Value (symbol_of object j) - Value (symbol_of object i)))
        (section_raw_data object).

End Linker.

(** ** WindowsPlatform<BytesPerWord>::WindowsPlatform

    The constructor passes [PlatformInfo(PlatformInfo::Windows, arch)] to
    its base class; [PlatformInfo] and its enumerators are declared in
    tools.h, which is not part of the sources, so the enumerators are
    parameters. *)

Section PlatformInfo.

Variables OperatingSystem Architecture : Type.
Variable Windows : OperatingSystem.
Variables x86 x86_64 : Architecture.

Definition WindowsPlatform_info (BytesPerWord : Z)
  : OperatingSystem * Architecture :=
  (Windows, if BytesPerWord =? 4 then x86 else x86_64).

End PlatformInfo.

(** * Lemmas *)

(** ** Lemmas on the integer layer *)

Lemma to_uint32_range v : 0 <= to_uint32 v < 2 ^ 32.
Proof. unfold to_uint32, to_unsigned. apply Z.mod_pos_bound. lia. Qed.

Lemma to_uint32_small v : 0 <= v < 2 ^ 32 -> to_uint32 v = v.
Proof. intros H. unfold to_uint32, to_unsigned. apply Z.mod_small. exact H. Qed.

Lemma to_uint32_add_l a b : to_uint32 (to_uint32 a + b) = to_uint32 (a + b).
Proof. unfold to_uint32, to_unsigned. apply Z.add_mod_idemp_l. lia. Qed.

Lemma to_uint32_add_r a b : to_uint32 (a + to_uint32 b) = to_uint32 (a + b).
Proof. unfold to_uint32, to_unsigned. apply Z.add_mod_idemp_r. lia. Qed.

Lemma land_uint32_r x m :
  0 <= x < 2 ^ 32 -> Z.land x (to_uint32 m) = Z.land x m.
Proof.
  intros Hx. unfold to_uint32, to_unsigned.
  rewrite <- (Z.land_ones m 32) by lia.
  rewrite (Z.land_comm m), Z.land_assoc.
  rewrite (Z.land_ones x 32) by lia.
  rewrite (Z.mod_small x) by exact Hx.
  reflexivity.
Qed.

Lemma pad_div n : pad n = to_uint32 (n + 3) / 4 * 4.
Proof.
  unfold pad. change (4 - 1) with 3.
  rewrite land_uint32_r by apply to_uint32_range.
  rewrite <- Z.ldiff_land.
  change 3 with (Z.ones 2) at 2.
  rewrite Z.ldiff_ones_r by lia.
  rewrite Z.shiftr_div_pow2, Z.shiftl_mul_pow2 by lia.
  reflexivity.
Qed.

Lemma pad_no_wrap n :
  0 <= n <= UINT_MAX - 3 -> pad n = (n + 3) / 4 * 4.
Proof.
  unfold UINT_MAX. intros H. rewrite pad_div, to_uint32_small; [reflexivity|lia].
Qed.

Lemma pad_range n : 0 <= pad n < 2 ^ 32.
Proof.
  rewrite pad_div. pose proof (to_uint32_range (n + 3)) as H.
  pose proof (Z.mul_div_le (to_uint32 (n + 3)) 4 ltac:(lia)).
  pose proof (Z.div_pos (to_uint32 (n + 3)) 4 ltac:(lia) ltac:(lia)).
  lia.
Qed.

(** The count handed to [writeRepeat]: [pad(size) - size] in unsigned
    arithmetic. *)
Lemma pad_excess n :
  0 <= n < 2 ^ 32 ->
  to_uint32 (pad n - n) = (- n) mod 4 /\ 0 <= to_uint32 (pad n - n) <= 3.
Proof.
  intros Hn. rewrite pad_div. unfold to_uint32, to_unsigned.
  assert (Hc : n + 3 < 2 ^ 32 \/ 2 ^ 32 <= n + 3) by lia.
  destruct Hc as [Hc | Hc].
  - rewrite (Z.mod_small (n + 3)) by lia.
    pose proof (Z.div_mod (n + 3) 4 ltac:(lia)) as E.
    pose proof (Z.mod_pos_bound (n + 3) 4 ltac:(lia)) as B.
    pose proof (Z.div_mod (- n) 4 ltac:(lia)) as E'.
    pose proof (Z.mod_pos_bound (- n) 4 ltac:(lia)) as B'.
    rewrite Z.mod_small by lia. lia.
  - assert (E : (n + 3) mod 2 ^ 32 = n + 3 - 2 ^ 32).
    { symmetry. apply (Z.mod_unique (n + 3) (2 ^ 32) 1); lia. }
    rewrite E. rewrite (Z.div_small (n + 3 - 2 ^ 32)) by lia.
    assert (E2 : (0 * 4 - n) mod 2 ^ 32 = 2 ^ 32 - n).
    { symmetry. apply (Z.mod_unique (0 * 4 - n) (2 ^ 32) (-1)); lia. }
    rewrite E2.
    pose proof (Z.div_mod (- n) 4 ltac:(lia)) as E'.
    pose proof (Z.mod_pos_bound (- n) 4 ltac:(lia)) as B'.
    lia.
Qed.

Lemma length_le_bytes w v : length (le_bytes w v) = w.
Proof. revert v. induction w as [|w IH]; intros v; simpl; [reflexivity|now rewrite IH]. Qed.

Lemma length_encode host w v : length (encode host w v) = w.
Proof. destruct host; simpl; [|rewrite length_rev]; apply length_le_bytes. Qed.

Lemma le_value_le_bytes w v :
  le_value (le_bytes w v) = v mod 2 ^ (8 * Z.of_nat w).
Proof.
  revert v. induction w as [|w IH]; intros v.
  - simpl. now rewrite Z.mod_1_r.
  - cbn [le_bytes le_value]. rewrite IH.
    replace (8 * Z.of_nat (S w)) with (8 + 8 * Z.of_nat w) by lia.
    rewrite Z.pow_add_r by lia. change (2 ^ 8) with 256.
    rewrite Z.rem_mul_r by lia. reflexivity.
Qed.

Lemma decode_encode host w v :
  decode host (encode host w v) = v mod 2 ^ (8 * Z.of_nat w).
Proof.
  destruct host; simpl; [|rewrite rev_involutive]; apply le_value_le_bytes.
Qed.

Lemma decode_encode_u8 host v :
  0 <= v < 2 ^ 8 -> decode host (encode host 1 v) = v.
Proof. intros H. rewrite decode_encode. apply Z.mod_small. exact H. Qed.

Lemma decode_encode_u16 host v :
  0 <= v < 2 ^ 16 -> decode host (encode host 2 v) = v.
Proof. intros H. rewrite decode_encode. apply Z.mod_small. exact H. Qed.

Lemma decode_encode_u32 host v :
  0 <= v < 2 ^ 32 -> decode host (encode host 4 v) = v.
Proof. intros H. rewrite decode_encode. apply Z.mod_small. exact H. Qed.

(** ** Lists: chunks at known offsets *)

Lemma skipn_app_length {A} (l1 l2 : list A) n :
  length l1 = n -> skipn n (l1 ++ l2) = l2.
Proof.
  intros <-. rewrite skipn_app, skipn_all, Nat.sub_diag. reflexivity.
Qed.

Lemma firstn_app_length {A} (l1 l2 : list A) n :
  length l1 = n -> firstn n (l1 ++ l2) = l1.
Proof.
  intros <-. rewrite firstn_app, firstn_all, Nat.sub_diag, firstn_O.
  apply app_nil_r.
Qed.

Lemma firstn_length_exact {A} (l : list A) n :
  length l = n -> firstn n l = l.
Proof. intros <-. apply firstn_all. Qed.

Lemma slice_app_skip (l1 l2 : list Z) off w :
  (length l1 <= off)%nat ->
  slice off w (l1 ++ l2) = slice (off - length l1) w l2.
Proof.
  intros H. unfold slice. rewrite skipn_app.
  rewrite (skipn_all2 l1) by exact H. reflexivity.
Qed.

Lemma slice_app_here (l1 l2 : list Z) w :
  length l1 = w -> slice 0 w (l1 ++ l2) = l1.
Proof. intros H. unfold slice. rewrite skipn_O. now apply firstn_app_length. Qed.

Lemma length_strncpy_bytes s n : length (strncpy_bytes s n) = n.
Proof.
  revert s. induction n as [|n IH]; intros s; [destruct s; reflexivity|].
  destruct s as [|c s]; cbn [strncpy_bytes].
  - apply repeat_length.
  - destruct (is_nul c); [apply repeat_length|].
    cbn [length]. now rewrite IH.
Qed.

(** ** Parsing what was serialised *)

Ltac chunk_length :=
  rewrite ?length_encode, ?length_firstn, ?length_strncpy_bytes,
    ?repeat_length; try lia.

Ltac find_field :=
  unfold field;
  repeat (rewrite slice_app_skip by chunk_length;
          rewrite ?length_encode; cbn [Nat.sub]);
  rewrite slice_app_here by chunk_length.

Section ParseBytes.

Variable host : endianness.

Lemma length_bytes_of_IMAGE_FILE_HEADER h :
  length (bytes_of_IMAGE_FILE_HEADER host h) = 20%nat.
Proof.
  unfold bytes_of_IMAGE_FILE_HEADER.
  rewrite !length_app, !length_encode. reflexivity.
Qed.

Lemma length_bytes_of_IMAGE_SECTION_HEADER h :
  length (Name h) = IMAGE_SIZEOF_SHORT_NAME ->
  length (bytes_of_IMAGE_SECTION_HEADER host h) = 40%nat.
Proof.
  intros H. unfold bytes_of_IMAGE_SECTION_HEADER.
  rewrite !length_app, !length_encode, length_firstn, H. reflexivity.
Qed.

Lemma length_bytes_of_IMAGE_SYMBOL s :
  length (bytes_of_IMAGE_SYMBOL host s) = 18%nat.
Proof.
  unfold bytes_of_IMAGE_SYMBOL.
  rewrite !length_app, !length_encode. reflexivity.
Qed.

Lemma parse_bytes_of_IMAGE_FILE_HEADER h rest :
  wf_IMAGE_FILE_HEADER h ->
  parse_IMAGE_FILE_HEADER host (bytes_of_IMAGE_FILE_HEADER host h ++ rest) = h.
Proof.
  intros [H1 H2 H3 H4 H5 H6 H7]. destruct h as [a b c d e f g].
  cbn [Machine NumberOfSections TimeDateStamp PointerToSymbolTable
       NumberOfSymbols SizeOfOptionalHeader Characteristics] in *.
  unfold parse_IMAGE_FILE_HEADER, bytes_of_IMAGE_FILE_HEADER.
  cbn [Machine NumberOfSections TimeDateStamp PointerToSymbolTable
       NumberOfSymbols SizeOfOptionalHeader Characteristics].
  rewrite <- !app_assoc.
  f_equal; find_field;
    first [ now apply decode_encode_u16 | now apply decode_encode_u32 ].
Qed.

Lemma parse_bytes_of_IMAGE_SECTION_HEADER h rest :
  wf_IMAGE_SECTION_HEADER h ->
  parse_IMAGE_SECTION_HEADER host
    (bytes_of_IMAGE_SECTION_HEADER host h ++ rest) = h.
Proof.
  intros [H0 H1 H2 H3 H4 H5 H6 H7 H8 H9].
  destruct h as [n a b c d e f g i j].
  cbn [Name Misc VirtualAddress SizeOfRawData PointerToRawData
       PointerToRelocations PointerToLinenumbers NumberOfRelocations
       NumberOfLinenumbers SectionCharacteristics] in *.
  unfold parse_IMAGE_SECTION_HEADER, bytes_of_IMAGE_SECTION_HEADER.
  cbn [Name Misc VirtualAddress SizeOfRawData PointerToRawData
       PointerToRelocations PointerToLinenumbers NumberOfRelocations
       NumberOfLinenumbers SectionCharacteristics].
  rewrite <- !app_assoc.
  rewrite (firstn_length_exact n) by exact H0.
  unfold IMAGE_SIZEOF_SHORT_NAME in *.
  f_equal; [now apply slice_app_here | ..];
    unfold field; rewrite slice_app_skip by lia; rewrite H0; cbn [Nat.sub];
    find_field;
    first [ now apply decode_encode_u32 | now apply decode_encode_u16 ].
Qed.

Lemma to_int16_decode_encode v :
  - 2 ^ 15 <= v < 2 ^ 15 -> to_int16 (decode host (encode host 2 v)) = v.
Proof.
  intros H. rewrite decode_encode. unfold to_int16, to_signed.
  change (8 * Z.of_nat 2) with 16. change (16 - 1) with 15.
  rewrite Z.add_mod_idemp_l by lia.
  rewrite Z.mod_small by lia. lia.
Qed.

Lemma parse_bytes_of_IMAGE_SYMBOL s rest :
  wf_IMAGE_SYMBOL s ->
  parse_IMAGE_SYMBOL host (bytes_of_IMAGE_SYMBOL host s ++ rest) = s.
Proof.
  intros [H1 H2 H3 H4 H5 H6 H7]. destruct s as [a b c d e f g].
  cbn [Short Long Value SectionNumber Type_ StorageClass
       NumberOfAuxSymbols] in *.
  unfold parse_IMAGE_SYMBOL, bytes_of_IMAGE_SYMBOL.
  cbn [Short Long Value SectionNumber Type_ StorageClass NumberOfAuxSymbols].
  rewrite <- !app_assoc.
  f_equal; find_field;
    first [ now apply decode_encode_u32 | now apply decode_encode_u16
          | now apply decode_encode_u8 | now apply to_int16_decode_encode ].
Qed.

End ParseBytes.

Lemma uint8_of_char_range c : 0 <= uint8_of_char c < 256.
Proof.
  unfold uint8_of_char. pose proof (N_ascii_bounded c) as H.
  change 256 with (Z.of_N 256). lia.
Qed.

Lemma uint8_of_char_nul c : is_nul c = true -> uint8_of_char c = 0.
Proof.
  unfold is_nul. intros H. apply Ascii.eqb_eq in H. subst c. reflexivity.
Qed.

Lemma uint8_of_char_not_nul c : is_nul c = false -> uint8_of_char c <> 0.
Proof.
  unfold is_nul, uint8_of_char. intros H E.
  apply Ascii.eqb_neq in H. apply H.
  rewrite <- (ascii_N_embedding c).
  replace (N_of_ascii c) with 0%N by lia. reflexivity.
Qed.

Lemma length_c_chars s : length (c_chars s) = strlen s.
Proof.
  induction s as [|c s IH]; cbn [c_chars strlen]; [reflexivity|].
  destruct (is_nul c); cbn [length]; [reflexivity|now rewrite IH].
Qed.

Lemma c_chars_not_nul s : Forall (fun b => 0 < b < 256) (c_chars s).
Proof.
  induction s as [|c s IH]; cbn [c_chars]; [constructor|].
  destruct (is_nul c) eqn:E; constructor; [|exact IH].
  pose proof (uint8_of_char_range c). pose proof (uint8_of_char_not_nul c E).
  lia.
Qed.

Lemma firstn_c_str_terminated s :
  firstn (S (strlen s)) (c_str s) = c_chars s ++ [0].
Proof.
  induction s as [|c s IH]; cbn [strlen c_str c_chars]; [reflexivity|].
  destruct (is_nul c) eqn:E.
  - cbn [firstn app]. now rewrite (uint8_of_char_nul c E).
  - change (firstn (S (S (strlen s))) (uint8_of_char c :: c_str s))
      with (uint8_of_char c :: firstn (S (strlen s)) (c_str s)).
    rewrite IH. reflexivity.
Qed.



Lemma strncpy_bytes_chars s n :
  strncpy_bytes s n = firstn n (c_chars s) ++ repeat 0 (n - strlen s).
Proof.
  revert s. induction n as [|n IH]; intros s.
  - destruct s; reflexivity.
  - destruct s as [|c s]; cbn [strncpy_bytes c_chars strlen].
    + reflexivity.
    + destruct (is_nul c); [reflexivity|].
      cbn [firstn app Nat.sub]. now rewrite IH.
Qed.

Lemma strlen_nchars n c : is_nul c = false -> strlen (nchars n c) = n.
Proof.
  intros H. induction n as [|n IH]; cbn [nchars strlen]; [reflexivity|].
  rewrite H. now rewrite IH.
Qed.

(** ** The records [writeObject] builds are within their types *)

Lemma to_uint16_range v : 0 <= to_uint16 v < 2 ^ 16.
Proof. unfold to_uint16, to_unsigned. apply Z.mod_pos_bound. lia. Qed.

Lemma wf_fileHeader size machine machineMask :
  wf_IMAGE_FILE_HEADER (fileHeader size machine machineMask).
Proof.
  constructor; cbn [fileHeader Machine NumberOfSections TimeDateStamp
    PointerToSymbolTable NumberOfSymbols SizeOfOptionalHeader Characteristics];
  first [ apply to_uint16_range | apply to_uint32_range | lia ].
Qed.

Lemma Name_sectionHeader size sectionName sectionMask :
  Name (sectionHeader size sectionName sectionMask)
  = strncpy_bytes sectionName IMAGE_SIZEOF_SHORT_NAME.
Proof.
  unfold sectionHeader, with_Name, strncpy. cbn [Name].
  rewrite skipn_all2 by (rewrite repeat_length; lia).
  apply app_nil_r.
Qed.

Lemma wf_sectionHeader size sectionName sectionMask :
  wf_IMAGE_SECTION_HEADER (sectionHeader size sectionName sectionMask).
Proof.
  constructor.
  - rewrite Name_sectionHeader. apply length_strncpy_bytes.
  - cbn. lia.
  - cbn. lia.
  - cbn [sectionHeader with_Name SizeOfRawData]. apply pad_range.
  - cbn [sectionHeader with_Name PointerToRawData]. apply to_uint32_range.
  - cbn. lia.
  - cbn. lia.
  - cbn. lia.
  - cbn. lia.
  - cbn [sectionHeader with_Name SectionCharacteristics].
    apply to_uint32_range.
Qed.

Lemma to_int16_sectionNumber : to_int16 sectionNumber = 1.
Proof. reflexivity. Qed.

Lemma wf_startSymbol : wf_IMAGE_SYMBOL startSymbol.
Proof.
  constructor; unfold startSymbol, with_Long;
    cbn [Short Long Value SectionNumber Type_ StorageClass NumberOfAuxSymbols];
    rewrite ?to_int16_sectionNumber; unfold startNameOffset; lia.
Qed.

Lemma wf_endSymbol size startName :
  0 <= size < 2 ^ 32 -> wf_IMAGE_SYMBOL (endSymbol size startName).
Proof.
  intros H.
  constructor; unfold endSymbol, with_Long;
    cbn [Short Long Value SectionNumber Type_ StorageClass NumberOfAuxSymbols];
    rewrite ?to_int16_sectionNumber;
    first [ apply to_uint32_range | lia ].
Qed.

(** ** The bytes of one call, chunk by chunk *)

Section Layout.

Variable host : endianness.
Variables (data : list Z) (size : Z) (out : OutputStream).
Variables (startName endName sectionName : string).
Variables (machine machineMask sectionMask : Z).

Let object : list Z :=
  emitted out
    (writeObject host data size out startName endName sectionName
                 machine machineMask sectionMask).

Lemma emitted_app (l : list Z) : emitted out (out ++ l) = l.
Proof. unfold emitted. now apply skipn_app_length. Qed.

Lemma writeObject_chunks :
  writeObject host data size out startName endName sectionName
              machine machineMask sectionMask =
    out ++
    bytes_of_IMAGE_FILE_HEADER host (fileHeader size machine machineMask) ++
    bytes_of_IMAGE_SECTION_HEADER host
      (sectionHeader size sectionName sectionMask) ++
    firstn (Z.to_nat size) data ++
    repeat 0 (padding_count size) ++
    bytes_of_IMAGE_SYMBOL host startSymbol ++
    bytes_of_IMAGE_SYMBOL host (endSymbol size startName) ++
    encode host 4 (symbolTableSize startName endName) ++
    firstn (Z.to_nat (startNameLength startName)) (c_str startName) ++
    firstn (Z.to_nat (endNameLength endName)) (c_str endName).
Proof.
  unfold writeObject, writeChunk, writeRepeat, padding_count.
  change (Z.to_nat sizeof_IMAGE_FILE_HEADER) with 20%nat.
  change (Z.to_nat sizeof_IMAGE_SECTION_HEADER) with 40%nat.
  change (Z.to_nat sizeof_IMAGE_SYMBOL) with 18%nat.
  change (Z.to_nat 4) with 4%nat.
  change (to_uint8 0) with 0.
  rewrite (firstn_length_exact (bytes_of_IMAGE_FILE_HEADER _ _))
    by apply length_bytes_of_IMAGE_FILE_HEADER.
  rewrite (firstn_length_exact (bytes_of_IMAGE_SECTION_HEADER _ _))
    by (apply length_bytes_of_IMAGE_SECTION_HEADER, wf_sectionHeader).
  rewrite !(firstn_length_exact (bytes_of_IMAGE_SYMBOL _ _))
    by apply length_bytes_of_IMAGE_SYMBOL.
  rewrite (firstn_length_exact (encode _ _ _)) by apply length_encode.
  rewrite <- !app_assoc. reflexivity.
Qed.

Lemma object_chunks :
  object =
    bytes_of_IMAGE_FILE_HEADER host (fileHeader size machine machineMask) ++
    bytes_of_IMAGE_SECTION_HEADER host
      (sectionHeader size sectionName sectionMask) ++
    firstn (Z.to_nat size) data ++
    repeat 0 (padding_count size) ++
    bytes_of_IMAGE_SYMBOL host startSymbol ++
    bytes_of_IMAGE_SYMBOL host (endSymbol size startName) ++
    encode host 4 (symbolTableSize startName endName) ++
    firstn (Z.to_nat (startNameLength startName)) (c_str startName) ++
    firstn (Z.to_nat (endNameLength endName)) (c_str endName).
Proof. unfold object. rewrite writeObject_chunks. apply emitted_app. Qed.

End Layout.

Section ObjectFields.

Variable host : endianness.
Variables (data : list Z) (size : Z) (out : OutputStream).
Variables (startName endName sectionName : string).
Variables (machine machineMask sectionMask : Z).

Let object : list Z :=
  emitted out
    (writeObject host data size out startName endName sectionName
                 machine machineMask sectionMask).

Lemma object_file_header :
  parse_IMAGE_FILE_HEADER host object = fileHeader size machine machineMask.
Proof.
  unfold object. rewrite object_chunks.
  apply parse_bytes_of_IMAGE_FILE_HEADER, wf_fileHeader.
Qed.

Lemma object_section_header :
  parse_IMAGE_SECTION_HEADER host (skipn section_header_position object)
  = sectionHeader size sectionName sectionMask.
Proof.
  unfold object. rewrite object_chunks.
  rewrite skipn_app_length by apply length_bytes_of_IMAGE_FILE_HEADER.
  apply parse_bytes_of_IMAGE_SECTION_HEADER, wf_sectionHeader.
Qed.

Hypothesis size_unsigned : 0 <= size < 2 ^ 32.
Hypothesis data_readable : size <= Z.of_nat (length data).

Lemma length_raw_data : length (firstn (Z.to_nat size) data) = Z.to_nat size.
Proof. rewrite length_firstn. lia. Qed.

Lemma object_from_raw_data :
  skipn raw_data_position object =
    firstn (Z.to_nat size) data ++
    repeat 0 (padding_count size) ++
    bytes_of_IMAGE_SYMBOL host startSymbol ++
    bytes_of_IMAGE_SYMBOL host (endSymbol size startName) ++
    encode host 4 (symbolTableSize startName endName) ++
    firstn (Z.to_nat (startNameLength startName)) (c_str startName) ++
    firstn (Z.to_nat (endNameLength endName)) (c_str endName).
Proof.
  unfold object. rewrite object_chunks.
  change raw_data_position with (40 + 20)%nat.
  rewrite <- skipn_skipn.
  rewrite skipn_app_length by apply length_bytes_of_IMAGE_FILE_HEADER.
  rewrite skipn_app_length
    by (apply length_bytes_of_IMAGE_SECTION_HEADER, wf_sectionHeader).
  reflexivity.
Qed.

Lemma object_from_symbol_table :
  skipn (symbol_table_position size) object =
    bytes_of_IMAGE_SYMBOL host startSymbol ++
    bytes_of_IMAGE_SYMBOL host (endSymbol size startName) ++
    encode host 4 (symbolTableSize startName endName) ++
    firstn (Z.to_nat (startNameLength startName)) (c_str startName) ++
    firstn (Z.to_nat (endNameLength endName)) (c_str endName).
Proof.
  unfold symbol_table_position.
  replace (raw_data_position + Z.to_nat size + padding_count size)%nat
    with (padding_count size + (Z.to_nat size + raw_data_position))%nat by lia.
  rewrite <- !skipn_skipn. rewrite object_from_raw_data.
  rewrite skipn_app_length by apply length_raw_data.
  rewrite skipn_app_length by apply repeat_length.
  reflexivity.
Qed.

Lemma object_raw_data :
  slice raw_data_position (Z.to_nat size) object = firstn (Z.to_nat size) data.
Proof.
  unfold slice. rewrite object_from_raw_data.
  apply firstn_app_length, length_raw_data.
Qed.

Lemma object_padding :
  slice (raw_data_position + Z.to_nat size) (padding_count size) object
  = repeat 0 (padding_count size).
Proof.
  unfold slice.
  replace (raw_data_position + Z.to_nat size)%nat
    with (Z.to_nat size + raw_data_position)%nat by lia.
  rewrite <- skipn_skipn, object_from_raw_data.
  rewrite skipn_app_length by apply length_raw_data.
  apply firstn_app_length, repeat_length.
Qed.

Lemma object_start_symbol :
  parse_IMAGE_SYMBOL host (skipn (symbol_table_position size) object)
  = startSymbol.
Proof.
  rewrite object_from_symbol_table.
  apply parse_bytes_of_IMAGE_SYMBOL, wf_startSymbol.
Qed.

Lemma object_end_symbol :
  parse_IMAGE_SYMBOL host (skipn (symbol_table_position size + 18) object)
  = endSymbol size startName.
Proof.
  replace (symbol_table_position size + 18)%nat
    with (18 + symbol_table_position size)%nat by lia.
  rewrite <- skipn_skipn, object_from_symbol_table.
  rewrite skipn_app_length by apply length_bytes_of_IMAGE_SYMBOL.
  apply parse_bytes_of_IMAGE_SYMBOL, wf_endSymbol, size_unsigned.
Qed.

Lemma object_from_string_table :
  skipn (string_table_position size) object =
    encode host 4 (symbolTableSize startName endName) ++
    firstn (Z.to_nat (startNameLength startName)) (c_str startName) ++
    firstn (Z.to_nat (endNameLength endName)) (c_str endName).
Proof.
  unfold string_table_position.
  replace (symbol_table_position size + 18 + 18)%nat
    with (18 + (18 + symbol_table_position size))%nat by lia.
  rewrite <- !skipn_skipn, object_from_symbol_table.
  rewrite !skipn_app_length by apply length_bytes_of_IMAGE_SYMBOL.
  reflexivity.
Qed.

Lemma object_string_table_size :
  field host 0 4 (skipn (string_table_position size) object)
  = symbolTableSize startName endName.
Proof.
  rewrite object_from_string_table. unfold field.
  rewrite slice_app_here by apply length_encode.
  apply decode_encode_u32, to_uint32_range.
Qed.

End ObjectFields.

(** * Properties of [pad] and of the padding *)

(** C5, as the code has it: with no wrap-around of [n + 3], that is for
    [n <= UINT_MAX - 3], [pad n = ((n+3)/4)*4] and [pad n - n] is one of
    0, 1, 2, 3; for every [unsigned] size the number of bytes written after
    the raw data is [pad n - n] reduced modulo 2^32, which is [(-n) mod 4],
    one of 0, 1, 2, 3, and these bytes are all zero and are followed
    directly by the start symbol record. *)
Theorem pad_and_zero_padding
    host data size out startName endName sectionName
    machine machineMask sectionMask :
  0 <= size < 2 ^ 32 ->
  size <= Z.of_nat (length data) ->
  let object :=
    emitted out
      (writeObject host data size out startName endName sectionName
                   machine machineMask sectionMask) in
  (size <= UINT_MAX - 3 ->
     pad size = (size + 3) / 4 * 4 /\ In (pad size - size) [0; 1; 2; 3]) /\
  to_uint32 (pad size - size) = (- size) mod 4 /\
  In (to_uint32 (pad size - size)) [0; 1; 2; 3] /\
  (size + Z.of_nat (padding_count size)) mod 4 = 0 /\
  slice raw_data_position (Z.to_nat size) object
    = firstn (Z.to_nat size) data /\
  slice (raw_data_position + Z.to_nat size) (padding_count size) object
    = repeat 0 (padding_count size) /\
  slice (raw_data_position + Z.to_nat size + padding_count size) 18 object
    = bytes_of_IMAGE_SYMBOL host startSymbol.
Proof.
  intros Hsize Hdata object.
  destruct (pad_excess size Hsize) as [Hmod Hrange].
  assert (Hin : forall k, 0 <= k <= 3 -> In k [0; 1; 2; 3]).
  { intros k Hk. cbn [In]. lia. }
  refine (conj _ (conj _ (conj _ (conj _ (conj _ (conj _ _)))))).
  - intros Hle. unfold UINT_MAX in Hle. split.
    + apply pad_no_wrap. unfold UINT_MAX. lia.
    + apply Hin. rewrite pad_no_wrap by (unfold UINT_MAX; lia).
      pose proof (Z.div_mod (size + 3) 4 ltac:(lia)).
      pose proof (Z.mod_pos_bound (size + 3) 4 ltac:(lia)). lia.
  - exact Hmod.
  - apply Hin, Hrange.
  - unfold padding_count. rewrite Z2Nat.id by lia. rewrite Hmod.
    rewrite Z.add_mod_idemp_r by lia.
    replace (size + - size) with 0 by lia. reflexivity.
  - apply object_raw_data; assumption.
  - apply object_padding; assumption.
  - fold (symbol_table_position size). unfold slice, object.
    rewrite object_from_symbol_table by assumption.
    apply firstn_app_length, length_bytes_of_IMAGE_SYMBOL.
Qed.

Lemma pad_and_zero_padding_witness :
  pad 5 = 8 /\
  slice 65 3
    (emitted []
       (writeObject LittleEndian [170; 170; 170; 170; 170] 5 []
          "_binary_start" "_binary_end" ".text"
          IMAGE_FILE_MACHINE_AMD64 0 0x60300020))
  = [0; 0; 0].
Proof.
  pose proof (pad_and_zero_padding LittleEndian [170; 170; 170; 170; 170] 5 []
                "_binary_start" "_binary_end" ".text"
                IMAGE_FILE_MACHINE_AMD64 0 0x60300020
                ltac:(lia) ltac:(simpl; lia)) as H.
  cbv zeta in H.
  destruct H as (H1 & _ & _ & _ & _ & H2 & _).
  split.
  - exact (proj1 (H1 ltac:(unfold UINT_MAX; lia))).
  - exact H2.
Defined.

(** C5 as stated fails where [n + 3] wraps around: [pad] of the largest
    [unsigned] is 0. *)
Lemma pad_wraps_around :
  pad UINT_MAX = 0 /\
  ~ (pad UINT_MAX = (UINT_MAX + 3) / 4 * 4 /\
     In (pad UINT_MAX - UINT_MAX) [0; 1; 2; 3]).
Proof.
  split; [reflexivity|].
  intros [H _]. vm_compute in H. discriminate H.
Qed.

(** * The symbol records *)

(** C3: in the object of every call the start symbol has value 0 and the end
    symbol has value [size], the unpadded size (so both are 0 for an empty
    blob); both records have section number 1, the external storage class
    and no auxiliary symbols. *)
Theorem symbol_values_and_attributes
    host data size out startName endName sectionName
    machine machineMask sectionMask :
  0 <= size < 2 ^ 32 ->
  size <= Z.of_nat (length data) ->
  let object :=
    emitted out
      (writeObject host data size out startName endName sectionName
                   machine machineMask sectionMask) in
  let start_record :=
    parse_IMAGE_SYMBOL host (skipn (symbol_table_position size) object) in
  let end_record :=
    parse_IMAGE_SYMBOL host
      (skipn (symbol_table_position size + 18) object) in
  Value start_record = 0 /\
  Value end_record = size /\
  (size = 0 -> Value start_record = 0 /\ Value end_record = 0) /\
  SectionNumber start_record = 1 /\
  SectionNumber end_record = 1 /\
  StorageClass start_record = IMAGE_SYM_CLASS_EXTERNAL /\
  StorageClass end_record = IMAGE_SYM_CLASS_EXTERNAL /\
  NumberOfAuxSymbols start_record = 0 /\
  NumberOfAuxSymbols end_record = 0.
Proof.
  intros Hsize Hdata object start_record end_record.
  unfold start_record, end_record, object.
  rewrite object_start_symbol, object_end_symbol by assumption.
  cbn [startSymbol endSymbol with_Long Value SectionNumber StorageClass
       NumberOfAuxSymbols].
  rewrite to_int16_sectionNumber.
  refine (conj eq_refl (conj eq_refl (conj _ _))).
  - intros E. split; [reflexivity | exact E].
  - repeat split.
Qed.

Lemma symbol_values_and_attributes_witness :
  let object :=
    emitted []
      (writeObject LittleEndian [170; 170; 170; 170; 170] 5 []
         "_binary_start" "_binary_end" ".text"
         IMAGE_FILE_MACHINE_AMD64 0 0x60300020) in
  Value (parse_IMAGE_SYMBOL LittleEndian (skipn 68 object)) = 0 /\
  Value (parse_IMAGE_SYMBOL LittleEndian (skipn 86 object)) = 5.
Proof.
  pose proof (symbol_values_and_attributes LittleEndian
                [170; 170; 170; 170; 170] 5 []
                "_binary_start" "_binary_end" ".text"
                IMAGE_FILE_MACHINE_AMD64 0 0x60300020
                ltac:(lia) ltac:(simpl; lia)) as H.
  cbv zeta in H. destruct H as (H1 & H2 & _).
  split; [exact H1 | exact H2].
Defined.

(** * Fields left at zero *)

Lemma encode_zero_2 host : encode host 2 0 = [0; 0].
Proof. destruct host; reflexivity. Qed.

Lemma encode_zero_4 host : encode host 4 0 = [0; 0; 0; 0].
Proof. destruct host; reflexivity. Qed.

Ltac find_slice :=
  repeat (rewrite slice_app_skip by chunk_length;
          rewrite ?length_encode; cbn [Nat.sub]);
  rewrite slice_app_here by chunk_length.

(** The bytes of the fields that a record has at zero are there, and are
    zero. *)

Lemma file_header_zero_bytes host h rest :
  TimeDateStamp h = 0 ->
  SizeOfOptionalHeader h = 0 ->
  slice 4 4 (bytes_of_IMAGE_FILE_HEADER host h ++ rest) = [0; 0; 0; 0] /\
  slice 16 2 (bytes_of_IMAGE_FILE_HEADER host h ++ rest) = [0; 0].
Proof.
  destruct h as [a b c d e f g].
  cbn [TimeDateStamp SizeOfOptionalHeader]. intros -> ->.
  unfold bytes_of_IMAGE_FILE_HEADER.
  cbn [Machine NumberOfSections TimeDateStamp PointerToSymbolTable
       NumberOfSymbols SizeOfOptionalHeader Characteristics].
  rewrite <- !app_assoc.
  split; find_slice; [apply encode_zero_4 | apply encode_zero_2].
Qed.

Lemma section_header_zero_bytes host h rest :
  length (Name h) = IMAGE_SIZEOF_SHORT_NAME ->
  Misc h = 0 ->
  VirtualAddress h = 0 ->
  PointerToRelocations h = 0 ->
  PointerToLinenumbers h = 0 ->
  NumberOfRelocations h = 0 ->
  NumberOfLinenumbers h = 0 ->
  let bytes := bytes_of_IMAGE_SECTION_HEADER host h ++ rest in
  slice 8 4 bytes = [0; 0; 0; 0] /\
  slice 12 4 bytes = [0; 0; 0; 0] /\
  slice 24 4 bytes = [0; 0; 0; 0] /\
  slice 28 4 bytes = [0; 0; 0; 0] /\
  slice 32 2 bytes = [0; 0] /\
  slice 34 2 bytes = [0; 0].
Proof.
  destruct h as [n a b c d e f g i j].
  cbn [Name Misc VirtualAddress PointerToRelocations PointerToLinenumbers
       NumberOfRelocations NumberOfLinenumbers].
  unfold IMAGE_SIZEOF_SHORT_NAME.
  intros Hn -> -> -> -> -> ->. cbv zeta.
  unfold bytes_of_IMAGE_SECTION_HEADER.
  cbn [Name Misc VirtualAddress SizeOfRawData PointerToRawData
       PointerToRelocations PointerToLinenumbers NumberOfRelocations
       NumberOfLinenumbers SectionCharacteristics].
  rewrite <- !app_assoc.
  rewrite (firstn_length_exact n) by exact Hn.
  repeat split;
    rewrite slice_app_skip by lia; rewrite Hn; cbn [Nat.sub];
    find_slice;
    first [ apply encode_zero_4 | apply encode_zero_2 ].
Qed.

Lemma symbol_zero_bytes host s rest :
  Short s = 0 ->
  Type_ s = 0 ->
  slice 0 4 (bytes_of_IMAGE_SYMBOL host s ++ rest) = [0; 0; 0; 0] /\
  slice 14 2 (bytes_of_IMAGE_SYMBOL host s ++ rest) = [0; 0].
Proof.
  destruct s as [a b c d e f g].
  cbn [Short Type_]. intros -> ->.
  unfold bytes_of_IMAGE_SYMBOL.
  cbn [Short Long Value SectionNumber Type_ StorageClass NumberOfAuxSymbols].
  rewrite <- !app_assoc.
  split; find_slice; [apply encode_zero_4 | apply encode_zero_2].
Qed.

(** C10: the fields that carry no information are zero: in the file header
    the time stamp and the optional-header size; in the section header the
    virtual address (and the virtual size it follows), the pointers to
    relocations and line numbers and their counts; in both symbol records
    the type and the short-name word, so that the name is the string-table
    offset in the long-name word.  The bytes of each of these fields are in
    the object, at the field's offset and over its full width, and every
    one of them is 0; the object reaches to the end of the second symbol
    record at least. *)
Theorem unused_fields_are_zero
    host data size out startName endName sectionName
    machine machineMask sectionMask :
  0 <= size < 2 ^ 32 ->
  size <= Z.of_nat (length data) ->
  let object :=
    emitted out
      (writeObject host data size out startName endName sectionName
                   machine machineMask sectionMask) in
  let section_bytes := skipn section_header_position object in
  let start_bytes := skipn (symbol_table_position size) object in
  let end_bytes := skipn (symbol_table_position size + 18) object in
  let file_header := parse_IMAGE_FILE_HEADER host object in
  let section_header := parse_IMAGE_SECTION_HEADER host section_bytes in
  let start_record := parse_IMAGE_SYMBOL host start_bytes in
  let end_record := parse_IMAGE_SYMBOL host end_bytes in
  (TimeDateStamp file_header = 0 /\ SizeOfOptionalHeader file_header = 0) /\
  (Misc section_header = 0 /\
   VirtualAddress section_header = 0 /\
   PointerToRelocations section_header = 0 /\
   PointerToLinenumbers section_header = 0 /\
   NumberOfRelocations section_header = 0 /\
   NumberOfLinenumbers section_header = 0) /\
  (Type_ start_record = 0 /\ Short start_record = 0) /\
  (Type_ end_record = 0 /\ Short end_record = 0) /\
  (slice 4 4 object = [0; 0; 0; 0] /\ slice 16 2 object = [0; 0]) /\
  (slice 8 4 section_bytes = [0; 0; 0; 0] /\
   slice 12 4 section_bytes = [0; 0; 0; 0] /\
   slice 24 4 section_bytes = [0; 0; 0; 0] /\
   slice 28 4 section_bytes = [0; 0; 0; 0] /\
   slice 32 2 section_bytes = [0; 0] /\
   slice 34 2 section_bytes = [0; 0]) /\
  (slice 14 2 start_bytes = [0; 0] /\ slice 0 4 start_bytes = [0; 0; 0; 0]) /\
  (slice 14 2 end_bytes = [0; 0] /\ slice 0 4 end_bytes = [0; 0; 0; 0]) /\
  (symbol_table_position size + 18 + 18 <= length object)%nat.
Proof.
  intros Hsize Hdata object section_bytes start_bytes end_bytes
    file_header section_header start_record end_record.
  assert (Hfh : file_header = fileHeader size machine machineMask)
    by apply object_file_header.
  assert (Hsh : section_header = sectionHeader size sectionName sectionMask)
    by apply object_section_header.
  assert (Hs : start_record = startSymbol)
    by (apply object_start_symbol; assumption).
  assert (He : end_record = endSymbol size startName)
    by (apply object_end_symbol; assumption).
  assert (Hobject : exists rest,
    object
    = bytes_of_IMAGE_FILE_HEADER host (fileHeader size machine machineMask)
      ++ rest).
  { eexists. unfold object. rewrite object_chunks. reflexivity. }
  assert (Hsection : exists rest,
    section_bytes
    = bytes_of_IMAGE_SECTION_HEADER host
        (sectionHeader size sectionName sectionMask) ++ rest).
  { eexists. unfold section_bytes, object. rewrite object_chunks.
    apply skipn_app_length, length_bytes_of_IMAGE_FILE_HEADER. }
  assert (Hstart : exists rest,
    start_bytes = bytes_of_IMAGE_SYMBOL host startSymbol ++ rest).
  { eexists. unfold start_bytes, object.
    apply object_from_symbol_table; assumption. }
  assert (Hend : exists rest,
    end_bytes = bytes_of_IMAGE_SYMBOL host (endSymbol size startName) ++ rest).
  { eexists. unfold end_bytes, object.
    replace (symbol_table_position size + 18)%nat
      with (18 + symbol_table_position size)%nat by lia.
    rewrite <- skipn_skipn, object_from_symbol_table by assumption.
    apply skipn_app_length, length_bytes_of_IMAGE_SYMBOL. }
  destruct Hobject as (r0 & Hobject). destruct Hsection as (r1 & Hsection).
  destruct Hstart as (r2 & Hstart). destruct Hend as (r3 & Hend).
  rewrite Hfh, Hsh, Hs, He.
  refine (conj _ (conj _ (conj _ (conj _ (conj _ (conj _
          (conj _ (conj _ _)))))))).
  - split; reflexivity.
  - repeat split.
  - split; reflexivity.
  - split; reflexivity.
  - rewrite Hobject. apply file_header_zero_bytes; reflexivity.
  - rewrite Hsection.
    apply section_header_zero_bytes;
      first [ apply wf_sectionHeader | reflexivity ].
  - rewrite Hstart.
    destruct (symbol_zero_bytes host startSymbol r2 eq_refl eq_refl).
    split; assumption.
  - rewrite Hend.
    destruct (symbol_zero_bytes host (endSymbol size startName) r3
                eq_refl eq_refl).
    split; assumption.
  - unfold object. rewrite object_chunks.
    rewrite !length_app, length_bytes_of_IMAGE_FILE_HEADER.
    rewrite length_bytes_of_IMAGE_SECTION_HEADER by apply wf_sectionHeader.
    rewrite !length_bytes_of_IMAGE_SYMBOL, repeat_length.
    rewrite length_raw_data by assumption.
    unfold symbol_table_position, raw_data_position. lia.
Qed.

Lemma unused_fields_are_zero_witness :
  let object :=
    emitted []
      (writeObject LittleEndian [170; 170; 170; 170; 170] 5 []
         "_binary_start" "_binary_end" ".text"
         IMAGE_FILE_MACHINE_AMD64 0 0x60300020) in
  TimeDateStamp (parse_IMAGE_FILE_HEADER LittleEndian object) = 0 /\
  Short (parse_IMAGE_SYMBOL LittleEndian (skipn 86 object)) = 0 /\
  slice 4 4 object = [0; 0; 0; 0] /\
  slice 14 2 (skipn 86 object) = [0; 0] /\
  (104 <= length object)%nat.
Proof.
  pose proof (unused_fields_are_zero LittleEndian
                [170; 170; 170; 170; 170] 5 []
                "_binary_start" "_binary_end" ".text"
                IMAGE_FILE_MACHINE_AMD64 0 0x60300020
                ltac:(lia) ltac:(simpl; lia)) as H.
  cbv zeta in H.
  destruct H as ((H1 & _) & _ & _ & (_ & H2) & (H3 & _) & _ & _
                 & (H4 & _) & H5).
  split; [exact H1|]. split; [exact H2|]. split; [exact H3|].
  split; [exact H4 | exact H5].
Defined.

(** * The section name field *)

Lemma firstn_min_length {A} (l : list A) n :
  firstn (Nat.min (length l) n) l = firstn n l.
Proof.
  destruct (Nat.le_ge_cases (length l) n) as [H | H].
  - rewrite Nat.min_l by exact H.
    rewrite firstn_all, firstn_all2 by exact H. reflexivity.
  - rewrite Nat.min_r by exact H. reflexivity.
Qed.

Lemma In_firstn {A} (x : A) n (l : list A) : In x (firstn n l) -> In x l.
Proof.
  intros H. rewrite <- (firstn_skipn n l). apply in_or_app. now left.
Qed.

(** C8: the 8-byte name field of the section header holds the first
    [min(len, 8)] characters of the section name, followed by NULs when the
    name is shorter than 8; a name of 8 characters or more fills the field
    with its first 8 characters and leaves no NUL in it. *)
Theorem section_name_field
    host data size out startName endName sectionName
    machine machineMask sectionMask :
  let object :=
    emitted out
      (writeObject host data size out startName endName sectionName
                   machine machineMask sectionMask) in
  let name :=
    Name (parse_IMAGE_SECTION_HEADER host
            (skipn section_header_position object)) in
  let len := strlen sectionName in
  length name = 8%nat /\
  name = firstn (Nat.min len 8) (c_chars sectionName)
         ++ repeat 0 (8 - Nat.min len 8) /\
  ((len < 8)%nat -> name = c_chars sectionName ++ repeat 0 (8 - len)) /\
  ((8 <= len)%nat -> name = firstn 8 (c_chars sectionName) /\ ~ In 0 name).
Proof.
  intros object name len. unfold name, object.
  rewrite object_section_header, Name_sectionHeader.
  unfold IMAGE_SIZEOF_SHORT_NAME.
  split; [apply length_strncpy_bytes|].
  rewrite strncpy_bytes_chars. fold len.
  assert (Hlen : length (c_chars sectionName) = len) by apply length_c_chars.
  split; [|split].
  - rewrite <- (firstn_min_length (c_chars sectionName) 8), Hlen.
    f_equal. f_equal. lia.
  - intros H. rewrite firstn_all2 by lia. reflexivity.
  - intros H. replace (8 - len)%nat with O by lia.
    cbn [repeat]. rewrite app_nil_r. split; [reflexivity|].
    intros Hin. apply In_firstn in Hin.
    pose proof (c_chars_not_nul sectionName) as Hall.
    rewrite Forall_forall in Hall. specialize (Hall 0 Hin). lia.
Qed.

Lemma section_name_field_witness :
  Name (parse_IMAGE_SECTION_HEADER LittleEndian
          (skipn 20
             (emitted []
                (writeObject LittleEndian [] 0 [] "s" "e" ".text$mn"
                   IMAGE_FILE_MACHINE_AMD64 0 0x60300020))))
  = [46; 116; 101; 120; 116; 36; 109; 110] /\
  Name (parse_IMAGE_SECTION_HEADER LittleEndian
          (skipn 20
             (emitted []
                (writeObject LittleEndian [] 0 [] "s" "e" ".data"
                   IMAGE_FILE_MACHINE_AMD64 0 0xC0300000))))
  = [46; 100; 97; 116; 97; 0; 0; 0].
Proof.
  split.
  - pose proof (section_name_field LittleEndian [] 0 [] "s" "e" ".text$mn"
                  IMAGE_FILE_MACHINE_AMD64 0 0x60300020) as H.
    cbv zeta in H. destruct H as (_ & _ & _ & H).
    exact (proj1 (H ltac:(simpl; lia))).
  - pose proof (section_name_field LittleEndian [] 0 [] "s" "e" ".data"
                  IMAGE_FILE_MACHINE_AMD64 0 0xC0300000) as H.
    cbv zeta in H. destruct H as (_ & _ & H & _).
    exact (H ltac:(simpl; lia)).
Defined.

(** * The string table *)

Lemma strlen_oversized_name : strlen oversized_name = Z.to_nat UINT_MAX.
Proof. unfold oversized_name. apply strlen_nchars. reflexivity. Qed.

Lemma startNameLength_oversized_name : startNameLength oversized_name = 0.
Proof.
  unfold startNameLength. rewrite strlen_oversized_name.
  rewrite Z2Nat.id by (unfold UINT_MAX; lia). reflexivity.
Qed.

Lemma name_length_no_wrap s :
  Z.of_nat (strlen s) + 1 < 2 ^ 32 ->
  to_uint32 (Z.of_nat (strlen s) + 1) = Z.of_nat (strlen s) + 1.
Proof. intros H. apply to_uint32_small. lia. Qed.

(** C4, as the code has it: the string-table size field holds
    [4 + len(startName)+1 + len(endName)+1] reduced modulo 2^32, the start
    symbol's name offset is 4 and the end symbol's is
    [4 + len(startName) + 1] reduced modulo 2^32; when
    [4 + len(startName)+1 + len(endName)+1] fits 32 bits nothing is
    reduced and the three fields hold the sums themselves. *)
Theorem string_table_size_and_name_offsets
    host data size out startName endName sectionName
    machine machineMask sectionMask :
  0 <= size < 2 ^ 32 ->
  size <= Z.of_nat (length data) ->
  let object :=
    emitted out
      (writeObject host data size out startName endName sectionName
                   machine machineMask sectionMask) in
  let start_record :=
    parse_IMAGE_SYMBOL host (skipn (symbol_table_position size) object) in
  let end_record :=
    parse_IMAGE_SYMBOL host
      (skipn (symbol_table_position size + 18) object) in
  let table_size :=
    field host 0 4 (skipn (string_table_position size) object) in
  let start_len := Z.of_nat (strlen startName) in
  let end_len := Z.of_nat (strlen endName) in
  table_size = (4 + (start_len + 1) + (end_len + 1)) mod 2 ^ 32 /\
  Long start_record = 4 /\
  Long end_record = (4 + start_len + 1) mod 2 ^ 32 /\
  (4 + (start_len + 1) + (end_len + 1) < 2 ^ 32 ->
     table_size = 4 + (start_len + 1) + (end_len + 1) /\
     Long start_record = 4 /\
     Long end_record = 4 + start_len + 1).
Proof.
  intros Hsize Hdata object start_record end_record table_size
    start_len end_len.
  assert (Htable :
    table_size = (4 + (start_len + 1) + (end_len + 1)) mod 2 ^ 32).
  { unfold table_size, object.
    rewrite object_string_table_size by assumption.
    unfold symbolTableSize, endNameOffset, startNameLength, endNameLength,
      startNameOffset.
    fold start_len end_len.
    rewrite to_uint32_add_r, to_uint32_add_l.
    replace (4 + to_uint32 (start_len + 1) + (end_len + 1))
      with (4 + (end_len + 1) + to_uint32 (start_len + 1)) by lia.
    rewrite to_uint32_add_r.
    unfold to_uint32, to_unsigned. f_equal. lia. }
  assert (Hstart : Long start_record = 4).
  { unfold start_record, object.
    rewrite object_start_symbol by assumption. reflexivity. }
  assert (Hend : Long end_record = (4 + start_len + 1) mod 2 ^ 32).
  { unfold end_record, object.
    rewrite object_end_symbol by assumption.
    cbn [endSymbol with_Long Long].
    unfold endNameOffset, startNameLength, startNameOffset.
    fold start_len. rewrite to_uint32_add_r.
    unfold to_uint32, to_unsigned. f_equal. lia. }
  refine (conj Htable (conj Hstart (conj Hend _))).
  intros Hfit. rewrite Htable, Hstart, Hend.
  rewrite !Z.mod_small by lia. repeat split.
Qed.

Lemma string_table_size_and_name_offsets_witness :
  let object :=
    emitted []
      (writeObject LittleEndian [170; 170; 170; 170; 170] 5 []
         "_binary_start" "_binary_end" ".text"
         IMAGE_FILE_MACHINE_AMD64 0 0x60300020) in
  field LittleEndian 0 4 (skipn 104 object) = 30 /\
  Long (parse_IMAGE_SYMBOL LittleEndian (skipn 68 object)) = 4 /\
  Long (parse_IMAGE_SYMBOL LittleEndian (skipn 86 object)) = 18.
Proof.
  pose proof (string_table_size_and_name_offsets LittleEndian
                [170; 170; 170; 170; 170] 5 []
                "_binary_start" "_binary_end" ".text"
                IMAGE_FILE_MACHINE_AMD64 0 0x60300020
                ltac:(lia) ltac:(simpl; lia)) as H.
  cbv zeta in H. destruct H as (_ & _ & _ & H).
  exact (H ltac:(simpl; lia)).
Defined.

(** C4 as stated fails for a start name of [UINT_MAX] characters: the
    lengths are reduced modulo 2^32, the size field is 6 and the end
    symbol's name offset is 4. *)
Lemma string_table_size_wraps_around :
  let object :=
    emitted []
      (writeObject LittleEndian [] 0 [] oversized_name "e" ".text"
         IMAGE_FILE_MACHINE_AMD64 0 0x60300020) in
  let end_record :=
    parse_IMAGE_SYMBOL LittleEndian
      (skipn (symbol_table_position 0 + 18) object) in
  field LittleEndian 0 4 (skipn (string_table_position 0) object) = 6 /\
  Long end_record = 4 /\
  ~ (field LittleEndian 0 4 (skipn (string_table_position 0) object)
       = 4 + (Z.of_nat (strlen oversized_name) + 1)
           + (Z.of_nat (strlen "e") + 1)) /\
  ~ (Long end_record = 4 + Z.of_nat (strlen oversized_name) + 1).
Proof.
  intros object end_record. unfold end_record, object.
  rewrite object_string_table_size by (cbn [length]; lia).
  rewrite object_end_symbol by (cbn [length]; lia).
  cbn [endSymbol with_Long Long].
  unfold symbolTableSize, endNameOffset.
  rewrite startNameLength_oversized_name, strlen_oversized_name.
  rewrite Z2Nat.id by (unfold UINT_MAX; lia).
  repeat split.
  - intros H. vm_compute in H. discriminate H.
  - intros H. vm_compute in H. discriminate H.
Qed.

(** * The byte ranges of an object, in order *)

(** C1, as the code has it: for names shorter than [UINT_MAX] characters the
    sink receives, after what it held, exactly: the 20 bytes of the file
    header, the 40 bytes of the section header, the [size] bytes of raw
    data, fewer than 4 zero bytes that bring the data to a multiple of 4,
    the 18 bytes of the start symbol, the 18 bytes of the end symbol, the 4
    bytes of the string-table size, the start name with its NUL and the end
    name with its NUL. *)
Theorem object_byte_ranges
    host data size out startName endName sectionName
    machine machineMask sectionMask :
  0 <= size < 2 ^ 32 ->
  size <= Z.of_nat (length data) ->
  Z.of_nat (strlen startName) + 1 < 2 ^ 32 ->
  Z.of_nat (strlen endName) + 1 < 2 ^ 32 ->
  let file_header :=
    bytes_of_IMAGE_FILE_HEADER host (fileHeader size machine machineMask) in
  let section_header :=
    bytes_of_IMAGE_SECTION_HEADER host
      (sectionHeader size sectionName sectionMask) in
  let raw_data := firstn (Z.to_nat size) data in
  let padding := repeat 0 (padding_count size) in
  let start_record := bytes_of_IMAGE_SYMBOL host startSymbol in
  let end_record := bytes_of_IMAGE_SYMBOL host (endSymbol size startName) in
  let table_size := encode host 4 (symbolTableSize startName endName) in
  writeObject host data size out startName endName sectionName
              machine machineMask sectionMask
  = out ++ file_header ++ section_header ++ raw_data ++ padding ++
    start_record ++ end_record ++ table_size ++
    (c_chars startName ++ [0]) ++ (c_chars endName ++ [0]) /\
  length file_header = 20%nat /\
  length section_header = 40%nat /\
  Z.of_nat (length raw_data) = size /\
  (length padding < 4)%nat /\
  (size + Z.of_nat (length padding)) mod 4 = 0 /\
  length start_record = 18%nat /\
  length end_record = 18%nat /\
  length table_size = 4%nat /\
  length (c_chars startName ++ [0]) = S (strlen startName) /\
  length (c_chars endName ++ [0]) = S (strlen endName).
Proof.
  intros Hsize Hdata Hstart Hend.
  intros file_header section_header raw_data padding start_record end_record
    table_size.
  destruct (pad_excess size Hsize) as [Hmod Hrange].
  refine (conj _ (conj _ (conj _ (conj _ (conj _ (conj _
          (conj _ (conj _ (conj _ (conj _ _)))))))))).
  - rewrite writeObject_chunks.
    unfold startNameLength, endNameLength.
    rewrite !name_length_no_wrap by assumption.
    replace (Z.to_nat (Z.of_nat (strlen startName) + 1))
      with (S (strlen startName)) by lia.
    replace (Z.to_nat (Z.of_nat (strlen endName) + 1))
      with (S (strlen endName)) by lia.
    rewrite !firstn_c_str_terminated. reflexivity.
  - apply length_bytes_of_IMAGE_FILE_HEADER.
  - apply length_bytes_of_IMAGE_SECTION_HEADER, wf_sectionHeader.
  - unfold raw_data. rewrite length_firstn. lia.
  - unfold padding, padding_count. rewrite repeat_length. lia.
  - unfold padding, padding_count. rewrite repeat_length.
    rewrite Z2Nat.id by lia. rewrite Hmod.
    rewrite Z.add_mod_idemp_r by lia.
    replace (size + - size) with 0 by lia. reflexivity.
  - apply length_bytes_of_IMAGE_SYMBOL.
  - apply length_bytes_of_IMAGE_SYMBOL.
  - apply length_encode.
  - rewrite length_app, length_c_chars. cbn [length]. lia.
  - rewrite length_app, length_c_chars. cbn [length]. lia.
Qed.

Lemma object_byte_ranges_witness :
  writeObject LittleEndian [170; 170; 170; 170; 170] 5 []
    "_binary_start" "_binary_end" ".text"
    IMAGE_FILE_MACHINE_AMD64 0 0x60300020
  = [] ++
    [100; 134; 1; 0; 0; 0; 0; 0; 68; 0; 0; 0; 2; 0; 0; 0; 0; 0; 5; 0] ++
    [46; 116; 101; 120; 116; 0; 0; 0; 0; 0; 0; 0; 0; 0; 0; 0;
     8; 0; 0; 0; 60; 0; 0; 0; 0; 0; 0; 0; 0; 0; 0; 0; 0; 0; 0; 0;
     32; 0; 48; 96] ++
    [170; 170; 170; 170; 170] ++
    [0; 0; 0] ++
    [0; 0; 0; 0; 4; 0; 0; 0; 0; 0; 0; 0; 1; 0; 0; 0; 2; 0] ++
    [0; 0; 0; 0; 18; 0; 0; 0; 5; 0; 0; 0; 1; 0; 0; 0; 2; 0] ++
    [30; 0; 0; 0] ++
    ([95; 98; 105; 110; 97; 114; 121; 95; 115; 116; 97; 114; 116] ++ [0]) ++
    ([95; 98; 105; 110; 97; 114; 121; 95; 101; 110; 100] ++ [0]).
Proof.
  exact (proj1 (object_byte_ranges LittleEndian
                  [170; 170; 170; 170; 170] 5 []
                  "_binary_start" "_binary_end" ".text"
                  IMAGE_FILE_MACHINE_AMD64 0 0x60300020
                  ltac:(lia) ltac:(simpl; lia)
                  ltac:(simpl; lia) ltac:(simpl; lia))).
Defined.

(** C1 as stated fails for a start name of [UINT_MAX] characters: its
    length plus one is 0 as an [unsigned], no byte of the name reaches the
    sink, and the object is 102 bytes long. *)
Lemma oversized_name_is_not_written :
  let object :=
    emitted []
      (writeObject LittleEndian [] 0 [] oversized_name "e" ".text"
         IMAGE_FILE_MACHINE_AMD64 0 0x60300020) in
  length object = 102%nat /\
  ~ exists file_header section_header padding start_record end_record
           table_size : list Z,
      object = file_header ++ section_header ++ [] ++ padding ++
               start_record ++ end_record ++ table_size ++
               (c_chars oversized_name ++ [0]) ++ (c_chars "e" ++ [0]).
Proof.
  intros object.
  assert (Hlen : length object = 102%nat).
  { unfold object. rewrite object_chunks.
    rewrite startNameLength_oversized_name.
    change (Z.to_nat 0) with O. rewrite !firstn_O.
    rewrite !length_app, length_bytes_of_IMAGE_FILE_HEADER.
    rewrite length_bytes_of_IMAGE_SECTION_HEADER by apply wf_sectionHeader.
    rewrite !length_bytes_of_IMAGE_SYMBOL, length_encode, repeat_length.
    reflexivity. }
  split; [exact Hlen|].
  intros (fh & sh & p & s1 & s2 & t & H).
  rewrite H in Hlen. rewrite !length_app in Hlen.
  rewrite length_c_chars, strlen_oversized_name in Hlen.
  unfold UINT_MAX in Hlen. lia.
Qed.

(** ** The two outcomes of [write] *)

Section WriteCases.

Variable host : endianness.
Variables BytesPerWord Writable Executable : Z.
Variables (data : list Z) (size : Z) (out : OutputStream).
Variable stderr : list diagnostic.
Variables (startName endName : string) (alignment accessFlags : Z).

Let result : bool * OutputStream * list diagnostic :=
  write host BytesPerWord Writable Executable data size out stderr
        startName endName alignment accessFlags.

Lemma write_supported_alignment :
  In alignment supported_alignments ->
  exists sectionMask,
    to_uint32 sectionMask
      = selected_characteristics Writable Executable alignment accessFlags /\
    result =
      (true,
       writeObject host data (to_uint32 size) out startName endName
         (selected_sectionName Writable Executable accessFlags)
         (selected_machine BytesPerWord) (selected_machineMask BytesPerWord)
         sectionMask,
       stderr).
Proof.
  unfold result, write, selected_sectionName, selected_characteristics,
    selected_machine, selected_machineMask, has_flag, supported_alignments.
  cbn [In]. intros H.
  destruct (BytesPerWord =? 8);
    destruct (Z.land accessFlags Writable =? 0);
    destruct (Z.land accessFlags Executable =? 0);
    cbn [negb];
    destruct H as [<- | [<- | [<- | [<- | [<- | []]]]]];
    (eexists; split; [|reflexivity]; reflexivity).
Qed.

Lemma write_unsupported_alignment :
  ~ In alignment supported_alignments ->
  result = (false, out, stderr ++ [unsupported_alignment alignment]).
Proof.
  unfold result, write, supported_alignments, unsupported_alignment.
  cbn [In]. intros H.
  destruct (BytesPerWord =? 8);
    (destruct alignment as [|p|p]; [exfalso; tauto| |reflexivity]);
    do 3 (destruct p as [p|p|]; [destruct p; reflexivity| |exfalso; tauto]);
    (destruct p as [p|p|]; [reflexivity|reflexivity|exfalso; tauto]).
Qed.

Lemma supported_alignment_dec :
  {In alignment supported_alignments} + {~ In alignment supported_alignments}.
Proof. apply in_dec, Z.eq_dec. Qed.

End WriteCases.

(** * The file header *)

(** C2, as the code has it: for every word size and every blob size the
    file header of the object has section count 1 and symbol count 2; its
    symbol-table offset is [20 + 40 + pad(n)] reduced modulo 2^32 ([n]
    being the size as an [unsigned]), which is [20 + 40 + pad(n)] itself for
    [n <= UINT_MAX - 63]; the machine is AMD64 without the 32-bit-machine
    flag when the word size is 8, and I386 with that flag when it is 4. *)
Theorem file_header_fields
    host BytesPerWord Writable Executable data size out stderr
    startName endName alignment accessFlags :
  In alignment supported_alignments ->
  let result :=
    write host BytesPerWord Writable Executable data size out stderr
          startName endName alignment accessFlags in
  let file_header :=
    parse_IMAGE_FILE_HEADER host (emitted out (sink result)) in
  NumberOfSections file_header = 1 /\
  NumberOfSymbols file_header = 2 /\
  PointerToSymbolTable file_header
    = (20 + 40 + pad (to_uint32 size)) mod 2 ^ 32 /\
  (0 <= size <= UINT_MAX - 63 ->
     PointerToSymbolTable file_header = 20 + 40 + pad size) /\
  (BytesPerWord = 8 ->
     Machine file_header = IMAGE_FILE_MACHINE_AMD64 /\
     Z.land (Characteristics file_header) IMAGE_FILE_32BIT_MACHINE = 0) /\
  (BytesPerWord = 4 ->
     Machine file_header = IMAGE_FILE_MACHINE_I386 /\
     Z.land (Characteristics file_header) IMAGE_FILE_32BIT_MACHINE
       = IMAGE_FILE_32BIT_MACHINE).
Proof.
  intros Halign result file_header.
  destruct (write_supported_alignment host BytesPerWord Writable Executable
              data size out stderr startName endName alignment accessFlags
              Halign) as (mask & _ & Hresult).
  unfold file_header, result. rewrite Hresult. cbn [sink fst snd].
  rewrite object_file_header.
  cbn [fileHeader NumberOfSections NumberOfSymbols PointerToSymbolTable
       Machine Characteristics].
  refine (conj eq_refl (conj eq_refl (conj eq_refl (conj _ (conj _ _))))).
  - intros Hsize. unfold UINT_MAX in Hsize.
    rewrite (to_uint32_small size) by lia.
    unfold sizeof_IMAGE_FILE_HEADER, sizeof_IMAGE_SECTION_HEADER.
    apply to_uint32_small.
    rewrite pad_no_wrap by (unfold UINT_MAX; lia).
    pose proof (Z.mul_div_le (size + 3) 4 ltac:(lia)).
    pose proof (Z.div_pos (size + 3) 4 ltac:(lia) ltac:(lia)).
    lia.
  - intros ->. split; reflexivity.
  - intros ->. split; reflexivity.
Qed.

Lemma file_header_fields_witness :
  let result :=
    write LittleEndian 8 2 4 [170; 170; 170; 170; 170] 5 [] []
          "_binary_start" "_binary_end" 4 4 in
  let file_header :=
    parse_IMAGE_FILE_HEADER LittleEndian (emitted [] (sink result)) in
  PointerToSymbolTable file_header = 68 /\
  Machine file_header = 0x8664.
Proof.
  pose proof (file_header_fields LittleEndian 8 2 4 [170; 170; 170; 170; 170]
                5 [] [] "_binary_start" "_binary_end" 4 4
                ltac:(unfold supported_alignments; simpl; tauto)) as H.
  cbv zeta in H. destruct H as (_ & _ & _ & H1 & H2 & _).
  split.
  - exact (H1 ltac:(unfold UINT_MAX; lia)).
  - exact (proj1 (H2 eq_refl)).
Defined.

(** C2 as stated fails for a blob of [UINT_MAX - 62] bytes: [pad] of its
    size is [UINT_MAX - 59], and [20 + 40 + pad] is 2^32, which the 32-bit
    field holds as 0. *)
Lemma symbol_table_offset_wraps_around :
  let result :=
    write LittleEndian 8 2 4 oversized_blob (UINT_MAX - 62) [] []
          "_binary_start" "_binary_end" 4 4 in
  let file_header :=
    parse_IMAGE_FILE_HEADER LittleEndian (emitted [] (sink result)) in
  returned result = true /\
  pad (UINT_MAX - 62) = UINT_MAX - 59 /\
  PointerToSymbolTable file_header = 0 /\
  ~ (PointerToSymbolTable file_header = 20 + 40 + pad (UINT_MAX - 62)).
Proof.
  intros result file_header.
  destruct (write_supported_alignment LittleEndian 8 2 4 oversized_blob
              (UINT_MAX - 62) [] [] "_binary_start" "_binary_end" 4 4)
    as (mask & _ & Hresult).
  { unfold supported_alignments. cbn [In]. tauto. }
  unfold file_header, result. rewrite Hresult. cbn [sink returned fst snd].
  rewrite object_file_header.
  cbn [fileHeader PointerToSymbolTable].
  refine (conj eq_refl (conj eq_refl (conj eq_refl _))).
  intros H. vm_compute in H. discriminate H.
Qed.

(** * Unsupported alignments *)

(** C6: [write] returns false exactly when the alignment is not one of
    0, 1, 2, 4, 8; it then leaves the sink as it was and sends one
    diagnostic, formatted from the alignment, to stderr; for each of the
    five supported alignments it returns true, whatever the other
    arguments. *)
Theorem write_fails_iff_unsupported_alignment
    host BytesPerWord Writable Executable data size out stderr
    startName endName alignment accessFlags :
  let result :=
    write host BytesPerWord Writable Executable data size out stderr
          startName endName alignment accessFlags in
  (returned result = false <-> ~ In alignment [0; 1; 2; 4; 8]) /\
  (returned result = false ->
     sink result = out /\
     emitted out (sink result) = [] /\
     diagnostics result
       = stderr ++ [fprintf_stderr ("unsupported alignment: %d" ++ newline)
                                   alignment]) /\
  (In alignment [0; 1; 2; 4; 8] ->
     returned result = true /\ diagnostics result = stderr).
Proof.
  intros result.
  destruct (supported_alignment_dec alignment) as [Hin | Hout].
  - destruct (write_supported_alignment host BytesPerWord Writable Executable
                data size out stderr startName endName alignment accessFlags
                Hin) as (mask & _ & Hresult).
    unfold result. rewrite Hresult. cbn [returned sink diagnostics fst snd].
    split; [split|split].
    + discriminate.
    + intros H. exfalso. exact (H Hin).
    + discriminate.
    + intros _. split; reflexivity.
  - pose proof (write_unsupported_alignment host BytesPerWord Writable
                  Executable data size out stderr startName endName alignment
                  accessFlags Hout) as Hresult.
    unfold result. rewrite Hresult. cbn [returned sink diagnostics fst snd].
    split; [split|split].
    + intros _. exact Hout.
    + reflexivity.
    + intros _. split; [reflexivity|]. split; [|reflexivity].
      unfold emitted. apply skipn_all.
    + intros H. exfalso. exact (Hout H).
Qed.

Lemma write_fails_iff_unsupported_alignment_witness :
  let result :=
    write LittleEndian 8 2 4 [170; 170; 170; 170; 170] 5 [1; 2; 3] []
          "_binary_start" "_binary_end" 3 4 in
  returned result = false /\
  sink result = [1; 2; 3] /\
  diagnostics result
    = [fprintf_stderr ("unsupported alignment: %d" ++ newline) 3].
Proof.
  pose proof (write_fails_iff_unsupported_alignment LittleEndian 8 2 4
                [170; 170; 170; 170; 170] 5 [1; 2; 3] []
                "_binary_start" "_binary_end" 3 4) as H.
  cbv zeta in H. destruct H as ((_ & H1) & H2 & _).
  assert (Hfalse : ~ In 3 [0; 1; 2; 4; 8]).
  { cbn [In]. intros [E | [E | [E | [E | [E | []]]]]]; discriminate E. }
  split; [exact (H1 Hfalse)|].
  destruct (H2 (H1 Hfalse)) as (H3 & _ & H4).
  split; [exact H3 | exact H4].
Defined.

(** * The section header chosen by [write] *)

(** C7: for each supported alignment, the section is named [.rwx] with the
    writable, executable and contains-code flags when the access flags have
    Writable and Executable, [.data] with the writable flag when they have
    Writable only, and [.text] with the executable and contains-code flags
    when they have neither; in every case the readable flag and the
    alignment class (1 byte for 0 and 1, 2 bytes for 2, 4 bytes for 4,
    8 bytes for 8) are set as well, and nothing else is. *)
Theorem section_name_and_characteristics
    host BytesPerWord Writable Executable data size out stderr
    startName endName alignment accessFlags :
  In alignment supported_alignments ->
  let result :=
    write host BytesPerWord Writable Executable data size out stderr
          startName endName alignment accessFlags in
  let section_header :=
    parse_IMAGE_SECTION_HEADER host
      (skipn section_header_position (emitted out (sink result))) in
  let name := Name section_header in
  let mask := SectionCharacteristics section_header in
  let writable := Z.land accessFlags Writable <> 0 in
  let executable := Z.land accessFlags Executable <> 0 in
  let readable_and_aligned :=
    Z.lor (alignment_class alignment) IMAGE_SCN_MEM_READ in
  (writable -> executable ->
     name = c_chars ".rwx" ++ [0; 0; 0; 0] /\
     mask = Z.lor readable_and_aligned
              (Z.lor (Z.lor IMAGE_SCN_MEM_WRITE IMAGE_SCN_MEM_EXECUTE)
                     IMAGE_SCN_CNT_CODE)) /\
  (writable -> ~ executable ->
     name = c_chars ".data" ++ [0; 0; 0] /\
     mask = Z.lor readable_and_aligned IMAGE_SCN_MEM_WRITE) /\
  (~ writable -> ~ executable ->
     name = c_chars ".text" ++ [0; 0; 0] /\
     mask = Z.lor readable_and_aligned
              (Z.lor IMAGE_SCN_MEM_EXECUTE IMAGE_SCN_CNT_CODE)) /\
  Z.land mask IMAGE_SCN_MEM_READ = IMAGE_SCN_MEM_READ /\
  Z.land mask IMAGE_SCN_ALIGN_MASK = alignment_class alignment /\
  (alignment = 0 \/ alignment = 1 ->
     Z.land mask IMAGE_SCN_ALIGN_MASK = IMAGE_SCN_ALIGN_1BYTES) /\
  (alignment = 2 -> Z.land mask IMAGE_SCN_ALIGN_MASK = IMAGE_SCN_ALIGN_2BYTES) /\
  (alignment = 4 -> Z.land mask IMAGE_SCN_ALIGN_MASK = IMAGE_SCN_ALIGN_4BYTES) /\
  (alignment = 8 -> Z.land mask IMAGE_SCN_ALIGN_MASK = IMAGE_SCN_ALIGN_8BYTES).
Proof.
  intros Halign result section_header name mask writable executable
    readable_and_aligned.
  destruct (write_supported_alignment host BytesPerWord Writable Executable
              data size out stderr startName endName alignment accessFlags
              Halign) as (sectionMask & Hmask & Hresult).
  assert (Hname : name = strncpy_bytes
                    (selected_sectionName Writable Executable accessFlags)
                    IMAGE_SIZEOF_SHORT_NAME).
  { unfold name, section_header, result. rewrite Hresult. cbn [sink fst snd].
    rewrite object_section_header. apply Name_sectionHeader. }
  assert (Hchar : mask = selected_characteristics
                    Writable Executable alignment accessFlags).
  { unfold mask, section_header, result. rewrite Hresult. cbn [sink fst snd].
    rewrite object_section_header. exact Hmask. }
  rewrite Hname, Hchar.
  unfold selected_sectionName, selected_characteristics, has_flag,
    writable, executable, readable_and_aligned.
  assert (Hbits :
    forall flags,
      In flags
         [Z.lor (Z.lor IMAGE_SCN_MEM_WRITE IMAGE_SCN_MEM_EXECUTE)
                IMAGE_SCN_CNT_CODE;
          IMAGE_SCN_MEM_WRITE;
          Z.lor IMAGE_SCN_MEM_EXECUTE IMAGE_SCN_CNT_CODE] ->
      let m := Z.lor (Z.lor (alignment_class alignment) IMAGE_SCN_MEM_READ)
                     flags in
      Z.land m IMAGE_SCN_MEM_READ = IMAGE_SCN_MEM_READ /\
      Z.land m IMAGE_SCN_ALIGN_MASK = alignment_class alignment).
  { unfold supported_alignments in Halign. cbn [In] in Halign. cbn [In].
    intros flags Hflags.
    destruct Halign as [<- | [<- | [<- | [<- | [<- | []]]]]];
      destruct Hflags as [<- | [<- | [<- | []]]];
      split; reflexivity. }
  assert (Hclass :
    (alignment = 0 \/ alignment = 1 ->
       alignment_class alignment = IMAGE_SCN_ALIGN_1BYTES) /\
    (alignment = 2 -> alignment_class alignment = IMAGE_SCN_ALIGN_2BYTES) /\
    (alignment = 4 -> alignment_class alignment = IMAGE_SCN_ALIGN_4BYTES) /\
    (alignment = 8 -> alignment_class alignment = IMAGE_SCN_ALIGN_8BYTES)).
  { repeat split; intros; subst; try reflexivity.
    destruct H; subst; reflexivity. }
  destruct Hclass as (Hc1 & Hc2 & Hc4 & Hc8).
  destruct (Z.eqb_spec (Z.land accessFlags Writable) 0) as [Hw | Hw];
    destruct (Z.eqb_spec (Z.land accessFlags Executable) 0) as [He | He];
    cbn [negb];
    match goal with
    | |- context [Z.lor (Z.lor (alignment_class alignment) IMAGE_SCN_MEM_READ)
                        ?f] =>
        destruct (Hbits f ltac:(cbn [In]; tauto)) as [Hr Ha]
    end;
    rewrite Hr, Ha;
    (split; [intros H1 H2; try contradiction; split; reflexivity|]);
    (split; [intros H1 H2; try contradiction; split; reflexivity|]);
    (split; [intros H1 H2; try contradiction; split; reflexivity|]);
    (split; [reflexivity|]);
    (split; [reflexivity|]);
    (split; [exact Hc1|]);
    (split; [exact Hc2|]);
    (split; [exact Hc4|exact Hc8]).
Qed.

Lemma section_name_and_characteristics_witness :
  let result :=
    write LittleEndian 8 2 4 [170; 170; 170; 170; 170] 5 [] []
          "_binary_start" "_binary_end" 4 (Z.lor 2 4) in
  let section_header :=
    parse_IMAGE_SECTION_HEADER LittleEndian
      (skipn 20 (emitted [] (sink result))) in
  Name section_header = [46; 114; 119; 120; 0; 0; 0; 0] /\
  SectionCharacteristics section_header = 0xE0300020.
Proof.
  pose proof (section_name_and_characteristics LittleEndian 8 2 4
                [170; 170; 170; 170; 170] 5 [] []
                "_binary_start" "_binary_end" 4 (Z.lor 2 4)
                ltac:(unfold supported_alignments; simpl; tauto)) as H.
  cbv zeta in H. destruct H as (H & _).
  exact (H ltac:(discriminate) ltac:(discriminate)).
Defined.

(** * The two word sizes *)

(** Two sequences that differ in two chunks agree outside these chunks. *)
Lemma nth_error_outside_chunks {A} (a a' b c c' d : list A) i :
  length a = length a' ->
  length c = length c' ->
  ~ (i < length a)%nat ->
  ~ (length a + length b <= i < length a + length b + length c)%nat ->
  nth_error (a ++ b ++ c ++ d) i = nth_error (a' ++ b ++ c' ++ d) i.
Proof.
  intros Ha Hc H1 H2.
  rewrite (nth_error_app2 a) by lia.
  rewrite (nth_error_app2 a') by lia.
  rewrite <- Ha.
  destruct (Nat.lt_ge_cases (i - length a) (length b)) as [Hb | Hb].
  - rewrite !(nth_error_app1 b) by exact Hb. reflexivity.
  - rewrite !(nth_error_app2 b) by exact Hb.
    rewrite (nth_error_app2 c) by lia.
    rewrite (nth_error_app2 c') by lia.
    rewrite <- Hc. reflexivity.
Qed.

(** C9: on the same arguments the 32-bit and the 64-bit writers return the
    same flag and send the same diagnostics, and their objects have the same
    length and the same byte at every position other than 0, 1 (the machine
    field of the file header) and 18, 19 (its characteristics). *)
Theorem word_size_changes_only_machine_and_characteristics
    host Writable Executable data size out stderr
    startName endName alignment accessFlags :
  let result32 :=
    windows32Platform_write host Writable Executable data size out stderr
      startName endName alignment accessFlags in
  let result64 :=
    windows64Platform_write host Writable Executable data size out stderr
      startName endName alignment accessFlags in
  let object32 := emitted out (sink result32) in
  let object64 := emitted out (sink result64) in
  returned result32 = returned result64 /\
  diagnostics result32 = diagnostics result64 /\
  length object32 = length object64 /\
  (forall i : nat,
     i <> 0%nat -> i <> 1%nat -> i <> 18%nat -> i <> 19%nat ->
     nth_error object32 i = nth_error object64 i) /\
  skipn 20 object32 = skipn 20 object64.
Proof.
  intros result32 result64 object32 object64.
  unfold object32, object64, result32, result64,
    windows32Platform_write, windows64Platform_write.
  destruct (supported_alignment_dec alignment) as [Hin | Hout].
  - destruct (write_supported_alignment host 4 Writable Executable
                data size out stderr startName endName alignment accessFlags
                Hin) as (mask32 & Hmask32 & Hresult32).
    destruct (write_supported_alignment host 8 Writable Executable
                data size out stderr startName endName alignment accessFlags
                Hin) as (mask64 & Hmask64 & Hresult64).
    rewrite Hresult32, Hresult64. cbn [returned sink diagnostics fst snd].
    rewrite !object_chunks.
    assert (Hsh :
      sectionHeader (to_uint32 size)
        (selected_sectionName Writable Executable accessFlags) mask32
      = sectionHeader (to_uint32 size)
        (selected_sectionName Writable Executable accessFlags) mask64).
    { unfold sectionHeader, with_Name.
      cbn [Name Misc VirtualAddress SizeOfRawData PointerToRawData
           PointerToRelocations PointerToLinenumbers NumberOfRelocations
           NumberOfLinenumbers SectionCharacteristics].
      rewrite Hmask32, Hmask64. reflexivity. }
    rewrite Hsh.
    set (rest := bytes_of_IMAGE_SECTION_HEADER host _ ++ _).
    unfold bytes_of_IMAGE_FILE_HEADER.
    cbn [fileHeader Machine NumberOfSections TimeDateStamp
         PointerToSymbolTable NumberOfSymbols SizeOfOptionalHeader
         Characteristics].
    set (middle :=
      encode host 2 (to_uint16 sectionCount) ++
      encode host 4 0 ++
      encode host 4
        (to_uint32 (sizeof_IMAGE_FILE_HEADER + sizeof_IMAGE_SECTION_HEADER
                    + pad (to_uint32 size))) ++
      encode host 4 (to_uint32 symbolCount) ++
      encode host 2 0).
    assert (Hshape : forall M C,
      (encode host 2 M ++
       encode host 2 (to_uint16 sectionCount) ++
       encode host 4 0 ++
       encode host 4
         (to_uint32 (sizeof_IMAGE_FILE_HEADER + sizeof_IMAGE_SECTION_HEADER
                     + pad (to_uint32 size))) ++
       encode host 4 (to_uint32 symbolCount) ++
       encode host 2 0 ++ encode host 2 C) ++ rest
      = encode host 2 M ++ middle ++ encode host 2 C ++ rest).
    { intros M C. unfold middle. rewrite <- !app_assoc. reflexivity. }
    rewrite !Hshape.
    assert (Hmiddle : length middle = 16%nat).
    { unfold middle. rewrite !length_app, !length_encode. reflexivity. }
    refine (conj eq_refl (conj eq_refl (conj _ (conj _ _)))).
    + rewrite !length_app, !length_encode. reflexivity.
    + intros i H0 H1 H18 H19.
      apply nth_error_outside_chunks;
        rewrite ?length_encode, ?Hmiddle; lia.
    + replace 20%nat with (2 + (16 + 2))%nat by reflexivity.
      rewrite <- !skipn_skipn.
      rewrite !(skipn_app_length (encode host 2 _)) by apply length_encode.
      rewrite !(skipn_app_length middle) by exact Hmiddle.
      rewrite !(skipn_app_length (encode host 2 _)) by apply length_encode.
      reflexivity.
  - rewrite !write_unsupported_alignment by exact Hout.
    repeat split.
Qed.

Lemma word_size_changes_only_machine_and_characteristics_witness :
  let object32 :=
    emitted []
      (sink (windows32Platform_write LittleEndian 2 4
               [170; 170; 170; 170; 170] 5 [] []
               "_binary_start" "_binary_end" 4 4)) in
  let object64 :=
    emitted []
      (sink (windows64Platform_write LittleEndian 2 4
               [170; 170; 170; 170; 170] 5 [] []
               "_binary_start" "_binary_end" 4 4)) in
  nth_error object32 2 = nth_error object64 2 /\
  nth_error object32 60 = nth_error object64 60.
Proof.
  pose proof (word_size_changes_only_machine_and_characteristics
                LittleEndian 2 4 [170; 170; 170; 170; 170] 5 [] []
                "_binary_start" "_binary_end" 4 4) as H.
  cbv zeta in H. destruct H as (_ & _ & _ & H & _).
  split.
  - exact (H 2%nat ltac:(discriminate) ltac:(discriminate)
             ltac:(discriminate) ltac:(discriminate)).
  - exact (H 60%nat ltac:(discriminate) ltac:(discriminate)
             ltac:(discriminate) ltac:(discriminate)).
Defined.


(** * Further properties of [pad] *)

(** X1: for every argument, [pad] returns a multiple of 4 that fits 32 bits,
    and applying it twice is the same as applying it once. *)
Theorem pad_multiple_of_4_and_idempotent n :
  0 <= pad n < 2 ^ 32 /\ pad n mod 4 = 0 /\ pad (pad n) = pad n.
Proof.
  pose proof (pad_range n) as Hrange.
  assert (Hmul : pad n mod 4 = 0).
  { rewrite pad_div. apply Z.mod_mul. lia. }
  refine (conj Hrange (conj Hmul _)).
  pose proof (Z.div_mod (pad n) 4 ltac:(lia)) as Hq.
  rewrite Hmul in Hq.
  rewrite (pad_div (pad n)).
  rewrite to_uint32_small by lia.
  replace (pad n + 3) with (3 + pad n / 4 * 4) by lia.
  rewrite Z.div_add by lia.
  change (3 / 4) with 0. lia.
Qed.

(** X2: when [n + 3] does not wrap around, [pad n] is the least multiple of
    4 that is not below [n]: it lies in [n, n + 3], no multiple of 4 lies
    between [n] and it, and it is [n] exactly when [n] is a multiple of 4. *)
Theorem pad_least_multiple_of_4 n :
  0 <= n <= UINT_MAX - 3 ->
  n <= pad n < n + 4 /\
  (forall m, m mod 4 = 0 -> n <= m -> pad n <= m) /\
  (pad n = n <-> n mod 4 = 0).
Proof.
  intros Hn. rewrite pad_no_wrap by exact Hn.
  pose proof (Z.div_mod (n + 3) 4 ltac:(lia)) as Hq.
  pose proof (Z.mod_pos_bound (n + 3) 4 ltac:(lia)) as Hr.
  split; [lia|]. split.
  - intros m Hm Hle.
    pose proof (Z.div_mod m 4 ltac:(lia)) as Hmq. rewrite Hm in Hmq.
    assert ((n + 3) / 4 <= m / 4); [|lia].
    apply Z.div_le_lower_bound; lia.
  - pose proof (Z.div_mod n 4 ltac:(lia)) as Hnq.
    pose proof (Z.mod_pos_bound n 4 ltac:(lia)) as Hnr.
    split; intros H.
    + rewrite <- H. apply Z.mod_mul. lia.
    + rewrite H in Hnq.
      replace (n + 3) with (3 + n / 4 * 4) by lia.
      rewrite Z.div_add by lia. change (3 / 4) with 0. lia.
Qed.

Lemma pad_least_multiple_of_4_witness :
  5 <= pad 5 < 9 /\ (pad 8 = 8 <-> 8 mod 4 = 0).
Proof.
  split.
  - exact (proj1 (pad_least_multiple_of_4 5 ltac:(unfold UINT_MAX; lia))).
  - exact (proj2 (proj2
             (pad_least_multiple_of_4 8 ltac:(unfold UINT_MAX; lia)))).
Defined.

(** * The sink and the blob *)

(** X4: of the blob, [writeObject] reads the first [size] bytes and nothing
    behind them: two blobs with the same first [size] bytes give the same
    output. *)
Theorem writeObject_reads_only_size_bytes
    host data data' size out startName endName sectionName
    machine machineMask sectionMask :
  firstn (Z.to_nat size) data = firstn (Z.to_nat size) data' ->
  writeObject host data size out startName endName sectionName
              machine machineMask sectionMask
  = writeObject host data' size out startName endName sectionName
                machine machineMask sectionMask.
Proof.
  intros H. rewrite !writeObject_chunks, H. reflexivity.
Qed.

Lemma writeObject_reads_only_size_bytes_witness :
  writeObject LittleEndian [1; 2; 3; 4; 5] 3 [] "s" "e" ".text"
    IMAGE_FILE_MACHINE_AMD64 0 0x60300020
  = writeObject LittleEndian [1; 2; 3] 3 [] "s" "e" ".text"
      IMAGE_FILE_MACHINE_AMD64 0 0x60300020.
Proof.
  exact (writeObject_reads_only_size_bytes LittleEndian
           [1; 2; 3; 4; 5] [1; 2; 3] 3 [] "s" "e" ".text"
           IMAGE_FILE_MACHINE_AMD64 0 0x60300020 eq_refl).
Defined.

(** X5: two blobs of the same size give objects that differ in the raw data
    only: the 60 bytes of the headers are the same, and so is everything
    from the padding on. *)
Theorem object_depends_on_data_in_raw_data_only
    host data data' size out startName endName sectionName
    machine machineMask sectionMask :
  0 <= size < 2 ^ 32 ->
  size <= Z.of_nat (length data) ->
  size <= Z.of_nat (length data') ->
  let object :=
    emitted out
      (writeObject host data size out startName endName sectionName
                   machine machineMask sectionMask) in
  let object' :=
    emitted out
      (writeObject host data' size out startName endName sectionName
                   machine machineMask sectionMask) in
  length object = length object' /\
  firstn raw_data_position object = firstn raw_data_position object' /\
  skipn (raw_data_position + Z.to_nat size) object
    = skipn (raw_data_position + Z.to_nat size) object'.
Proof.
  intros Hsize Hdata Hdata' object object'.
  assert (Hlen : length (firstn (Z.to_nat size) data)
                 = length (firstn (Z.to_nat size) data')).
  { rewrite !length_firstn. lia. }
  assert (Hskip : forall d,
    size <= Z.of_nat (length d) ->
    skipn (raw_data_position + Z.to_nat size)
      (emitted out
         (writeObject host d size out startName endName sectionName
                      machine machineMask sectionMask))
    = repeat 0 (padding_count size) ++
      bytes_of_IMAGE_SYMBOL host startSymbol ++
      bytes_of_IMAGE_SYMBOL host (endSymbol size startName) ++
      encode host 4 (symbolTableSize startName endName) ++
      firstn (Z.to_nat (startNameLength startName)) (c_str startName) ++
      firstn (Z.to_nat (endNameLength endName)) (c_str endName)).
  { intros d Hd.
    replace (raw_data_position + Z.to_nat size)%nat
      with (Z.to_nat size + raw_data_position)%nat by lia.
    rewrite <- skipn_skipn, object_from_raw_data by assumption.
    apply skipn_app_length. rewrite length_firstn. lia. }
  assert (Hfirst : forall d,
    firstn raw_data_position
      (emitted out
         (writeObject host d size out startName endName sectionName
                      machine machineMask sectionMask))
    = bytes_of_IMAGE_FILE_HEADER host (fileHeader size machine machineMask) ++
      bytes_of_IMAGE_SECTION_HEADER host
        (sectionHeader size sectionName sectionMask)).
  { intros d. rewrite object_chunks, app_assoc.
    apply firstn_app_length.
    rewrite length_app, length_bytes_of_IMAGE_FILE_HEADER.
    rewrite length_bytes_of_IMAGE_SECTION_HEADER by apply wf_sectionHeader.
    reflexivity. }
  unfold object, object'.
  refine (conj _ (conj _ _)).
  - rewrite !object_chunks, !length_app, Hlen. reflexivity.
  - rewrite !Hfirst. reflexivity.
  - rewrite !Hskip by assumption. reflexivity.
Qed.

Lemma object_depends_on_data_in_raw_data_only_witness :
  firstn 60
    (emitted [] (writeObject LittleEndian [1; 2; 3] 3 [] "s" "e" ".text"
                   IMAGE_FILE_MACHINE_AMD64 0 0x60300020))
  = firstn 60
      (emitted [] (writeObject LittleEndian [7; 8; 9] 3 [] "s" "e" ".text"
                     IMAGE_FILE_MACHINE_AMD64 0 0x60300020)).
Proof.
  exact (proj1 (proj2
    (object_depends_on_data_in_raw_data_only LittleEndian
       [1; 2; 3] [7; 8; 9] 3 [] "s" "e" ".text"
       IMAGE_FILE_MACHINE_AMD64 0 0x60300020
       ltac:(lia) ltac:(simpl; lia) ltac:(simpl; lia)))).
Defined.

(** * The object as a linker reads it *)

Lemma padding_count_no_wrap size :
  0 <= size <= UINT_MAX - 3 ->
  Z.of_nat (padding_count size) = pad size - size /\ size <= pad size < size + 4.
Proof.
  intros H. unfold UINT_MAX in H.
  assert (Hb : size <= pad size < size + 4).
  { rewrite pad_no_wrap by (unfold UINT_MAX; lia).
    pose proof (Z.div_mod (size + 3) 4 ltac:(lia)).
    pose proof (Z.mod_pos_bound (size + 3) 4 ltac:(lia)). lia. }
  split; [|exact Hb].
  unfold padding_count. rewrite to_uint32_small by lia. lia.
Qed.

Lemma read_c_string_c_chars s rest :
  read_c_string (c_chars s ++ 0 :: rest) = c_chars s.
Proof.
  induction s as [|c s IH]; cbn [c_chars]; [reflexivity|].
  destruct (is_nul c) eqn:E; [reflexivity|].
  cbn [app read_c_string].
  pose proof (uint8_of_char_not_nul c E) as Hc.
  destruct (Z.eqb_spec (uint8_of_char c) 0) as [H0 | _]; [contradiction|].
  now rewrite IH.
Qed.


Section LinkerView.

Variable host : endianness.
Variables (data : list Z) (size : Z) (out : OutputStream).
Variables (startName endName sectionName : string).
Variables (machine machineMask sectionMask : Z).

Let object : list Z :=
  emitted out
    (writeObject host data size out startName endName sectionName
                 machine machineMask sectionMask).

Hypothesis data_readable : size <= Z.of_nat (length data).


(** X7: when [20 + 40 + pad(size)] fits 32 bits, the pointers in the headers
    lead to the parts: the raw data starts where [PointerToRawData] says,
    [SizeOfRawData] is the size plus the padding written, the symbol table
    starts where the raw data ends and where [PointerToSymbolTable] says,
    and the two symbols lie inside the raw data. *)
Theorem header_pointers_lead_to_the_parts :
  0 <= size <= UINT_MAX - 63 ->
  let file_header := parse_IMAGE_FILE_HEADER host object in
  let section_header :=
    parse_IMAGE_SECTION_HEADER host (skipn section_header_position object) in
  Z.to_nat (PointerToRawData section_header) = raw_data_position /\
  SizeOfRawData section_header = size + Z.of_nat (padding_count size) /\
  PointerToRawData section_header + SizeOfRawData section_header
    = PointerToSymbolTable file_header /\
  Z.to_nat (PointerToSymbolTable file_header) = symbol_table_position size /\
  section_raw_data host object
    = firstn (Z.to_nat size) data ++ repeat 0 (padding_count size) /\
  0 = Value (symbol_of host object 0) /\
  Value (symbol_of host object 0) <= Value (symbol_of host object 1) /\
  Value (symbol_of host object 1) <= SizeOfRawData section_header.
Proof.
  intros Hsize file_header section_header. unfold UINT_MAX in Hsize.
  destruct (padding_count_no_wrap size ltac:(unfold UINT_MAX; lia))
    as [Hcount Hpad].
  assert (Hfh : file_header = fileHeader size machine machineMask)
    by apply object_file_header.
  assert (Hsh : section_header = sectionHeader size sectionName sectionMask)
    by apply object_section_header.
  assert (Hptr : PointerToSymbolTable file_header = 60 + pad size).
  { rewrite Hfh. cbn [fileHeader PointerToSymbolTable].
    unfold sizeof_IMAGE_FILE_HEADER, sizeof_IMAGE_SECTION_HEADER.
    apply to_uint32_small. lia. }
  assert (Hraw : PointerToRawData section_header = 60).
  { rewrite Hsh. reflexivity. }
  assert (Hsz : SizeOfRawData section_header = pad size).
  { rewrite Hsh. reflexivity. }
  assert (Hpos : Z.to_nat (PointerToSymbolTable file_header)
                 = symbol_table_position size).
  { rewrite Hptr. unfold symbol_table_position, raw_data_position. lia. }
  assert (Hsym0 : symbol_of host object 0 = startSymbol).
  { unfold symbol_of, symbol_table_of. fold file_header. rewrite Hpos.
    change (18 * 0)%nat with O. rewrite skipn_O.
    apply object_start_symbol; [lia | assumption]. }
  assert (Hsym1 : symbol_of host object 1 = endSymbol size startName).
  { unfold symbol_of, symbol_table_of. fold file_header. rewrite Hpos.
    rewrite skipn_skipn. change (18 * 1)%nat with 18%nat.
    replace (18 + symbol_table_position size)%nat
      with (symbol_table_position size + 18)%nat by lia.
    apply object_end_symbol; [lia | assumption]. }
  refine (conj _ (conj _ (conj _ (conj Hpos (conj _ (conj _ (conj _ _))))))).
  - rewrite Hraw. reflexivity.
  - rewrite Hsz. lia.
  - rewrite Hraw, Hsz, Hptr. reflexivity.
  - unfold section_raw_data. fold section_header. rewrite Hraw, Hsz.
    change (Z.to_nat 60) with raw_data_position.
    unfold slice. unfold object.
    rewrite object_from_raw_data by (try assumption; lia).
    rewrite app_assoc. apply firstn_app_length.
    rewrite length_app, repeat_length, length_firstn. lia.
  - rewrite Hsym0. reflexivity.
  - rewrite Hsym0, Hsym1. cbn [startSymbol endSymbol with_Long Value]. lia.
  - rewrite Hsym1, Hsz. cbn [endSymbol with_Long Value]. lia.
Qed.

Hypothesis size_fits : 0 <= size <= UINT_MAX - 63.
Hypothesis names_fit :
  4 + (Z.of_nat (strlen startName) + 1) + (Z.of_nat (strlen endName) + 1)
    < 2 ^ 32.

Lemma linker_symbol_table :
  symbol_table_of host object =
    bytes_of_IMAGE_SYMBOL host startSymbol ++
    bytes_of_IMAGE_SYMBOL host (endSymbol size startName) ++
    encode host 4 (symbolTableSize startName endName) ++
    (c_chars startName ++ [0]) ++ (c_chars endName ++ [0]).
Proof.
  unfold UINT_MAX in size_fits.
  destruct (padding_count_no_wrap size ltac:(unfold UINT_MAX; lia))
    as [Hcount Hpad].
  unfold symbol_table_of, object. rewrite object_file_header.
  cbn [fileHeader PointerToSymbolTable].
  unfold sizeof_IMAGE_FILE_HEADER, sizeof_IMAGE_SECTION_HEADER.
  rewrite to_uint32_small by lia.
  replace (Z.to_nat (20 + 40 + pad size)) with (symbol_table_position size)
    by (unfold symbol_table_position, raw_data_position; lia).
  rewrite object_from_symbol_table by (try assumption; lia).
  unfold startNameLength, endNameLength.
  rewrite !name_length_no_wrap by lia.
  replace (Z.to_nat (Z.of_nat (strlen startName) + 1))
    with (S (strlen startName)) by lia.
  replace (Z.to_nat (Z.of_nat (strlen endName) + 1))
    with (S (strlen endName)) by lia.
  rewrite !firstn_c_str_terminated. reflexivity.
Qed.

Lemma linker_string_table :
  string_table_of host object =
    encode host 4 (symbolTableSize startName endName) ++
    (c_chars startName ++ [0]) ++ (c_chars endName ++ [0]).
Proof.
  unfold string_table_of. rewrite linker_symbol_table.
  unfold object. rewrite object_file_header.
  cbn [fileHeader NumberOfSymbols].
  change (18 * Z.to_nat (to_uint32 symbolCount))%nat with (18 + 18)%nat.
  rewrite <- skipn_skipn.
  rewrite !skipn_app_length by apply length_bytes_of_IMAGE_SYMBOL.
  reflexivity.
Qed.

(** X8: when the sizes fit 32 bits, the size field of the string table is
    the number of bytes from the start of the string table to the end of
    the object: the table holds the field, the two names with their NULs,
    and nothing follows it. *)
Theorem string_table_size_is_its_length :
  field host 0 4 (string_table_of host object)
    = Z.of_nat (length (string_table_of host object)) /\
  skipn 4 (string_table_of host object)
    = c_chars startName ++ [0] ++ c_chars endName ++ [0].
Proof.
  rewrite linker_string_table. split.
  - unfold field. rewrite slice_app_here by apply length_encode.
    rewrite decode_encode_u32 by apply to_uint32_range.
    rewrite !length_app, length_encode, !length_c_chars. cbn [length].
    unfold symbolTableSize, endNameOffset, startNameLength, endNameLength,
      startNameOffset.
    rewrite !name_length_no_wrap by lia.
    rewrite (to_uint32_small (4 + _)) by lia.
    rewrite to_uint32_small by lia. lia.
  - rewrite skipn_app_length by apply length_encode.
    rewrite <- !app_assoc. reflexivity.
Qed.

(** X9: when the sizes fit 32 bits, following the pointers of the object
    gives back what was written: the file header announces two symbols,
    both in section 1 and named through the string table; their names are
    the start name and the end name; and the bytes of the section between
    the two symbols are the blob. *)
Theorem linker_recovers_names_and_blob :
  NumberOfSections (parse_IMAGE_FILE_HEADER host object) = 1 /\
  NumberOfSymbols (parse_IMAGE_FILE_HEADER host object) = 2 /\
  Short (symbol_of host object 0) = 0 /\
  Short (symbol_of host object 1) = 0 /\
  SectionNumber (symbol_of host object 0) = 1 /\
  SectionNumber (symbol_of host object 1) = 1 /\
  symbol_name host object 0 = c_chars startName /\
  symbol_name host object 1 = c_chars endName /\
  bytes_between host object 0 1 = firstn (Z.to_nat size) data.
Proof.
  unfold UINT_MAX in size_fits.
  destruct (padding_count_no_wrap size ltac:(unfold UINT_MAX; lia))
    as [Hcount Hpad].
  assert (Hsym0 : symbol_of host object 0 = startSymbol).
  { unfold symbol_of. rewrite linker_symbol_table.
    change (18 * 0)%nat with O. rewrite skipn_O.
    apply parse_bytes_of_IMAGE_SYMBOL, wf_startSymbol. }
  assert (Hsym1 : symbol_of host object 1 = endSymbol size startName).
  { unfold symbol_of. rewrite linker_symbol_table.
    change (18 * 1)%nat with 18%nat.
    rewrite skipn_app_length by apply length_bytes_of_IMAGE_SYMBOL.
    apply parse_bytes_of_IMAGE_SYMBOL, wf_endSymbol. lia. }
  assert (Hraw : section_raw_data host object
                 = firstn (Z.to_nat size) data
                   ++ repeat 0 (padding_count size)).
  { unfold section_raw_data, object. rewrite object_section_header.
    cbn [sectionHeader with_Name PointerToRawData SizeOfRawData].
    change (Z.to_nat (to_uint32 (sizeof_IMAGE_FILE_HEADER
                                 + sizeof_IMAGE_SECTION_HEADER)))
      with raw_data_position.
    unfold slice. rewrite object_from_raw_data by (try assumption; lia).
    rewrite app_assoc. apply firstn_app_length.
    rewrite length_app, repeat_length, length_firstn. lia. }
  unfold symbol_name, bytes_between.
  rewrite Hsym0, Hsym1, Hraw, linker_string_table.
  unfold object. rewrite object_file_header.
  cbn [startSymbol endSymbol with_Long Short Long Value SectionNumber
       fileHeader NumberOfSections NumberOfSymbols].
  rewrite to_int16_sectionNumber.
  refine (conj eq_refl (conj eq_refl (conj eq_refl (conj eq_refl
          (conj eq_refl (conj eq_refl (conj _ (conj _ _)))))))).
  - unfold startNameOffset. change (Z.to_nat 4) with 4%nat.
    rewrite skipn_app_length by apply length_encode.
    rewrite <- app_assoc. cbn [app]. apply read_c_string_c_chars.
  - unfold endNameOffset, startNameLength, startNameOffset.
    rewrite name_length_no_wrap by lia.
    rewrite to_uint32_small by lia.
    replace (Z.to_nat (4 + (Z.of_nat (strlen startName) + 1)))
      with (S (strlen startName) + 4)%nat by lia.
    rewrite <- skipn_skipn.
    rewrite skipn_app_length by apply length_encode.
    rewrite skipn_app_length
      by (rewrite length_app, length_c_chars; cbn [length]; lia).
    cbn [app]. apply read_c_string_c_chars.
  - replace (size - 0) with size by lia.
    change (Z.to_nat 0) with O. unfold slice. rewrite skipn_O.
    apply firstn_app_length. rewrite length_firstn. lia.
Qed.

End LinkerView.


Lemma header_pointers_lead_to_the_parts_witness :
  let object :=
    emitted []
      (writeObject LittleEndian [170; 170; 170; 170; 170] 5 []
         "_binary_start" "_binary_end" ".text"
         IMAGE_FILE_MACHINE_AMD64 0 0x60300020) in
  SizeOfRawData
    (parse_IMAGE_SECTION_HEADER LittleEndian (skipn 20 object)) = 8 /\
  section_raw_data LittleEndian object
    = [170; 170; 170; 170; 170; 0; 0; 0].
Proof.
  pose proof (header_pointers_lead_to_the_parts LittleEndian
                [170; 170; 170; 170; 170] 5 []
                "_binary_start" "_binary_end" ".text"
                IMAGE_FILE_MACHINE_AMD64 0 0x60300020
                ltac:(simpl; lia) ltac:(unfold UINT_MAX; lia)) as H.
  cbv zeta in H. destruct H as (_ & H1 & _ & _ & H2 & _).
  split; [exact H1 | exact H2].
Defined.

Lemma string_table_size_is_its_length_witness :
  let object :=
    emitted []
      (writeObject LittleEndian [170; 170; 170; 170; 170] 5 []
         "_binary_start" "_binary_end" ".text"
         IMAGE_FILE_MACHINE_AMD64 0 0x60300020) in
  field LittleEndian 0 4 (string_table_of LittleEndian object) = 30 /\
  length (string_table_of LittleEndian object) = 30%nat.
Proof.
  pose proof (string_table_size_is_its_length LittleEndian
                [170; 170; 170; 170; 170] 5 []
                "_binary_start" "_binary_end" ".text"
                IMAGE_FILE_MACHINE_AMD64 0 0x60300020
                ltac:(simpl; lia) ltac:(unfold UINT_MAX; lia)
                ltac:(simpl; lia)) as H.
  destruct H as (H1 & _).
  split; [|reflexivity].
  rewrite H1. reflexivity.
Defined.

Lemma linker_recovers_names_and_blob_witness :
  let object :=
    emitted []
      (writeObject LittleEndian [170; 170; 170; 170; 170] 5 []
         "_binary_start" "_binary_end" ".text"
         IMAGE_FILE_MACHINE_AMD64 0 0x60300020) in
  symbol_name LittleEndian object 0 = c_chars "_binary_start" /\
  symbol_name LittleEndian object 1 = c_chars "_binary_end" /\
  bytes_between LittleEndian object 0 1 = [170; 170; 170; 170; 170].
Proof.
  pose proof (linker_recovers_names_and_blob LittleEndian
                [170; 170; 170; 170; 170] 5 []
                "_binary_start" "_binary_end" ".text"
                IMAGE_FILE_MACHINE_AMD64 0 0x60300020
                ltac:(simpl; lia) ltac:(unfold UINT_MAX; lia)
                ltac:(simpl; lia)) as H.
  destruct H as (_ & _ & _ & _ & _ & _ & H1 & H2 & H3).
  split; [exact H1 | split; [exact H2 | exact H3]].
Defined.

(** * Further properties of [write] *)

Section WriteProperties.

Variable host : endianness.
Variables BytesPerWord Writable Executable : Z.
Variables (data : list Z) (size : Z) (out : OutputStream).
Variable stderr : list diagnostic.
Variables (startName endName : string).

(** X11: the file header of every object has the relocations-stripped and
    the line-numbers-stripped flags; its characteristics are 5 for the
    64-bit writer and 0x105 for any other word size. *)
Theorem file_header_characteristics alignment accessFlags :
  In alignment supported_alignments ->
  let result :=
    write host BytesPerWord Writable Executable data size out stderr
          startName endName alignment accessFlags in
  let flags :=
    Characteristics
      (parse_IMAGE_FILE_HEADER host (emitted out (sink result))) in
  Z.land flags IMAGE_FILE_RELOCS_STRIPPED = IMAGE_FILE_RELOCS_STRIPPED /\
  Z.land flags IMAGE_FILE_LINE_NUMS_STRIPPED = IMAGE_FILE_LINE_NUMS_STRIPPED /\
  (BytesPerWord = 8 -> flags = 5) /\
  (BytesPerWord <> 8 -> flags = 0x105).
Proof.
  intros Halign result flags.
  destruct (write_supported_alignment host BytesPerWord Writable Executable
              data size out stderr startName endName alignment accessFlags
              Halign) as (mask & _ & Hresult).
  unfold flags, result. rewrite Hresult. cbn [sink fst snd].
  rewrite object_file_header. cbn [fileHeader Characteristics].
  unfold selected_machineMask.
  destruct (Z.eqb_spec BytesPerWord 8) as [E | E].
  - repeat split; try reflexivity. intros H. contradiction.
  - repeat split; try reflexivity. intros H. contradiction.
Qed.

(** X12: without the Writable flag the Executable flag is not looked at:
    the section is [.text], readable, executable and marked as code,
    whether Executable is set or not. *)
Theorem not_writable_is_text alignment accessFlags :
  In alignment supported_alignments ->
  Z.land accessFlags Writable = 0 ->
  let result :=
    write host BytesPerWord Writable Executable data size out stderr
          startName endName alignment accessFlags in
  let section_header :=
    parse_IMAGE_SECTION_HEADER host
      (skipn section_header_position (emitted out (sink result))) in
  Name section_header = c_chars ".text" ++ [0; 0; 0] /\
  SectionCharacteristics section_header
    = Z.lor (Z.lor (alignment_class alignment) IMAGE_SCN_MEM_READ)
            (Z.lor IMAGE_SCN_MEM_EXECUTE IMAGE_SCN_CNT_CODE) /\
  result
    = write host BytesPerWord Writable Executable data size out stderr
            startName endName alignment 0.
Proof.
  intros Halign Hw result section_header.
  destruct (write_supported_alignment host BytesPerWord Writable Executable
              data size out stderr startName endName alignment accessFlags
              Halign) as (mask & Hmask & Hresult).
  refine (conj _ (conj _ _)).
  - unfold section_header, result. rewrite Hresult. cbn [sink fst snd].
    rewrite object_section_header, Name_sectionHeader.
    unfold selected_sectionName, has_flag. rewrite Hw. reflexivity.
  - unfold section_header, result. rewrite Hresult. cbn [sink fst snd].
    rewrite object_section_header.
    cbn [sectionHeader with_Name SectionCharacteristics].
    rewrite Hmask. unfold selected_characteristics, has_flag.
    rewrite Hw. reflexivity.
  - unfold result, write. rewrite Hw. reflexivity.
Qed.

(** X13: the alignment and the access flags reach the object through the
    section name and the section characteristics only: two calls that
    differ in them, both with a supported alignment, give objects of the
    same length that agree on the file header, on bytes 28 to 55 of the
    section header and on everything from byte 60 on; alignments 0 and 1
    give the same result. *)
Theorem alignment_and_access_change_section_header_only
    alignment accessFlags alignment' accessFlags' :
  In alignment supported_alignments ->
  In alignment' supported_alignments ->
  let object :=
    emitted out
      (sink (write host BytesPerWord Writable Executable data size out stderr
                   startName endName alignment accessFlags)) in
  let object' :=
    emitted out
      (sink (write host BytesPerWord Writable Executable data size out stderr
                   startName endName alignment' accessFlags')) in
  length object = length object' /\
  firstn 20 object = firstn 20 object' /\
  slice 28 28 object = slice 28 28 object' /\
  skipn 60 object = skipn 60 object' /\
  write host BytesPerWord Writable Executable data size out stderr
        startName endName 0 accessFlags
  = write host BytesPerWord Writable Executable data size out stderr
          startName endName 1 accessFlags.
Proof.
  intros Halign Halign' object object'.
  destruct (write_supported_alignment host BytesPerWord Writable Executable
              data size out stderr startName endName alignment accessFlags
              Halign) as (mask & _ & Hresult).
  destruct (write_supported_alignment host BytesPerWord Writable Executable
              data size out stderr startName endName alignment' accessFlags'
              Halign') as (mask' & _ & Hresult').
  unfold object, object'. rewrite Hresult, Hresult'. cbn [sink fst snd].
  rewrite !object_chunks.
  set (rest := firstn (Z.to_nat (to_uint32 size)) data ++ _).
  set (header := bytes_of_IMAGE_FILE_HEADER host _).
  assert (Hheader : length header = 20%nat)
    by apply length_bytes_of_IMAGE_FILE_HEADER.
  unfold bytes_of_IMAGE_SECTION_HEADER.
  cbn [sectionHeader with_Name Name Misc VirtualAddress SizeOfRawData
       PointerToRawData PointerToRelocations PointerToLinenumbers
       NumberOfRelocations NumberOfLinenumbers SectionCharacteristics].
  set (middle :=
    encode host 4 0 ++ encode host 4 0 ++
    encode host 4 (pad (to_uint32 size)) ++
    encode host 4
      (to_uint32 (sizeof_IMAGE_FILE_HEADER + sizeof_IMAGE_SECTION_HEADER)) ++
    encode host 4 0 ++ encode host 4 0 ++
    encode host 2 0 ++ encode host 2 0).
  assert (Hmiddle : length middle = 28%nat).
  { unfold middle. rewrite !length_app, !length_encode. reflexivity. }
  assert (Hshape : forall name chars,
    length name = 8%nat ->
    header ++
    (name ++
     encode host 4 0 ++ encode host 4 0 ++
     encode host 4 (pad (to_uint32 size)) ++
     encode host 4
       (to_uint32 (sizeof_IMAGE_FILE_HEADER + sizeof_IMAGE_SECTION_HEADER)) ++
     encode host 4 0 ++ encode host 4 0 ++
     encode host 2 0 ++ encode host 2 0 ++ encode host 4 chars) ++ rest
    = header ++ name ++ middle ++ encode host 4 chars ++ rest).
  { intros name chars _. unfold middle. rewrite <- !app_assoc. reflexivity. }
  assert (Hname : forall dest src,
    length (firstn IMAGE_SIZEOF_SHORT_NAME
              (strncpy (repeat 0 IMAGE_SIZEOF_SHORT_NAME) src
                       IMAGE_SIZEOF_SHORT_NAME ++ dest)) = 8%nat).
  { intros dest src. rewrite length_firstn, !length_app.
    unfold strncpy. rewrite length_app, length_strncpy_bytes.
    unfold IMAGE_SIZEOF_SHORT_NAME. lia. }
  assert (Hname0 : forall src,
    length (firstn IMAGE_SIZEOF_SHORT_NAME
              (strncpy (repeat 0 IMAGE_SIZEOF_SHORT_NAME) src
                       IMAGE_SIZEOF_SHORT_NAME)) = 8%nat).
  { intros src. rewrite <- (Hname [] src). now rewrite app_nil_r. }
  rewrite !Hshape by apply Hname0.
  assert (Hparts : forall name chars,
    length name = 8%nat ->
    let o := header ++ name ++ middle ++ encode host 4 chars ++ rest in
    length o = (60 + length rest)%nat /\
    firstn 20 o = header /\
    slice 28 28 o = middle /\
    skipn 60 o = rest).
  { intros name chars Hn o. unfold o.
    refine (conj _ (conj _ (conj _ _))).
    - rewrite !length_app, length_encode, Hheader, Hn, Hmiddle. lia.
    - now apply firstn_app_length.
    - unfold slice. change 28%nat with (8 + 20)%nat at 2.
      rewrite <- skipn_skipn.
      rewrite (skipn_app_length header) by exact Hheader.
      rewrite (skipn_app_length name) by exact Hn.
      now apply firstn_app_length.
    - change 60%nat with (4 + (28 + (8 + 20)))%nat.
      rewrite <- !skipn_skipn.
      rewrite (skipn_app_length header) by exact Hheader.
      rewrite (skipn_app_length name) by exact Hn.
      rewrite (skipn_app_length middle) by exact Hmiddle.
      apply skipn_app_length, length_encode. }
  destruct (Hparts _ (to_uint32 mask)
              (Hname0 (selected_sectionName Writable Executable accessFlags)))
    as (H1 & H2 & H3 & H4).
  destruct (Hparts _ (to_uint32 mask')
              (Hname0 (selected_sectionName Writable Executable accessFlags')))
    as (H1' & H2' & H3' & H4').
  cbv zeta in *.
  rewrite H1, H1', H2, H2', H3, H3', H4, H4'.
  repeat split.
Qed.

End WriteProperties.

Lemma file_header_characteristics_witness :
  Characteristics
    (parse_IMAGE_FILE_HEADER LittleEndian
       (emitted []
          (sink (write LittleEndian 4 2 4 [170; 170; 170; 170; 170] 5 [] []
                       "_binary_start" "_binary_end" 4 4))))
  = 0x105.
Proof.
  pose proof (file_header_characteristics LittleEndian 4 2 4
                [170; 170; 170; 170; 170] 5 [] []
                "_binary_start" "_binary_end" 4 4
                ltac:(unfold supported_alignments; simpl; tauto)) as H.
  cbv zeta in H. destruct H as (_ & _ & _ & H).
  exact (H ltac:(discriminate)).
Defined.

Lemma not_writable_is_text_witness :
  let section_header :=
    parse_IMAGE_SECTION_HEADER LittleEndian
      (skipn 20
         (emitted []
            (sink (write LittleEndian 8 2 4 [170; 170; 170; 170; 170] 5 [] []
                         "_binary_start" "_binary_end" 8 4)))) in
  Name section_header = [46; 116; 101; 120; 116; 0; 0; 0] /\
  SectionCharacteristics section_header = 0x60400020.
Proof.
  pose proof (not_writable_is_text LittleEndian 8 2 4
                [170; 170; 170; 170; 170] 5 [] []
                "_binary_start" "_binary_end" 8 4
                ltac:(unfold supported_alignments; simpl; tauto)
                eq_refl) as H.
  cbv zeta in H. destruct H as (H1 & H2 & _).
  split; [exact H1 | exact H2].
Defined.

Lemma alignment_and_access_change_section_header_only_witness :
  skipn 60
    (emitted []
       (sink (write LittleEndian 8 2 4 [170; 170; 170; 170; 170] 5 [] []
                    "_binary_start" "_binary_end" 2 4)))
  = skipn 60
      (emitted []
         (sink (write LittleEndian 8 2 4 [170; 170; 170; 170; 170] 5 [] []
                      "_binary_start" "_binary_end" 8 2))).
Proof.
  pose proof (alignment_and_access_change_section_header_only
                LittleEndian 8 2 4 [170; 170; 170; 170; 170] 5 [] []
                "_binary_start" "_binary_end" 2 4 8 2
                ltac:(unfold supported_alignments; simpl; tauto)
                ltac:(unfold supported_alignments; simpl; tauto)) as H.
  cbv zeta in H. destruct H as (_ & _ & _ & H & _).
  exact H.
Defined.

(** * The platform and its writer *)

(** X14: the architecture a platform declares and the machine its writer
    puts in the file header go together for the two word sizes in use (x86
    with I386 for 4, x86_64 with AMD64 for 8); the constructor tests for 4
    and the writer for 8, so for any other word size the platform declares
    x86_64 while the writer emits I386. *)
Theorem platform_architecture_and_machine
    (OperatingSystem Architecture : Type) (Windows : OperatingSystem)
    (x86 x86_64 : Architecture)
    host BytesPerWord Writable Executable data size out stderr
    startName endName alignment accessFlags :
  In alignment supported_alignments ->
  let info := WindowsPlatform_info OperatingSystem Architecture
                Windows x86 x86_64 BytesPerWord in
  let result :=
    write host BytesPerWord Writable Executable data size out stderr
          startName endName alignment accessFlags in
  let machine :=
    Machine (parse_IMAGE_FILE_HEADER host (emitted out (sink result))) in
  fst info = Windows /\
  (BytesPerWord = 4 ->
     snd info = x86 /\ machine = IMAGE_FILE_MACHINE_I386) /\
  (BytesPerWord = 8 ->
     snd info = x86_64 /\ machine = IMAGE_FILE_MACHINE_AMD64) /\
  (BytesPerWord <> 4 -> BytesPerWord <> 8 ->
     snd info = x86_64 /\ machine = IMAGE_FILE_MACHINE_I386).
Proof.
  intros Halign info result machine.
  destruct (write_supported_alignment host BytesPerWord Writable Executable
              data size out stderr startName endName alignment accessFlags
              Halign) as (mask & _ & Hresult).
  unfold machine, result, info, WindowsPlatform_info.
  rewrite Hresult. cbn [sink fst snd].
  rewrite object_file_header. cbn [fileHeader Machine].
  unfold selected_machine.
  refine (conj eq_refl (conj _ (conj _ _))).
  - intros ->. split; reflexivity.
  - intros ->. split; reflexivity.
  - intros H4 H8.
    destruct (Z.eqb_spec BytesPerWord 4) as [E | _]; [contradiction|].
    destruct (Z.eqb_spec BytesPerWord 8) as [E | _]; [contradiction|].
    split; reflexivity.
Qed.

Lemma platform_architecture_and_machine_witness :
  snd (WindowsPlatform_info string string
         "Windows"%string "x86"%string "x86_64"%string 8)
  = "x86_64"%string /\
  Machine
    (parse_IMAGE_FILE_HEADER LittleEndian
       (emitted []
          (sink (write LittleEndian 8 2 4 [170; 170; 170; 170; 170] 5 [] []
                       "_binary_start" "_binary_end" 4 4))))
  = IMAGE_FILE_MACHINE_AMD64.
Proof.
  pose proof (platform_architecture_and_machine string string
                "Windows"%string "x86"%string "x86_64"%string
                LittleEndian 8 2 4 [170; 170; 170; 170; 170] 5 [] []
                "_binary_start" "_binary_end" 4 4
                ltac:(unfold supported_alignments; simpl; tauto)) as H.
  cbv zeta in H. destruct H as (_ & _ & H & _).
  exact (H eq_refl).
Defined.

(** * Where the 32-bit fields stop describing the object *)

(** X15: for every [unsigned] size the start symbol record is written
    behind the blob and its padding; the symbol-table pointer of the file
    header gives that position exactly when [size <= UINT_MAX - 63], and
    the raw-data size of the section header counts the blob and its
    padding exactly when [size <= UINT_MAX - 3]; for the three sizes above,
    the section is declared empty. *)
Theorem header_fields_describe_the_object_up_to
    host data size out startName endName sectionName
    machine machineMask sectionMask :
  0 <= size < 2 ^ 32 ->
  size <= Z.of_nat (length data) ->
  let object :=
    emitted out
      (writeObject host data size out startName endName sectionName
                   machine machineMask sectionMask) in
  let file_header := parse_IMAGE_FILE_HEADER host object in
  let section_header :=
    parse_IMAGE_SECTION_HEADER host (skipn section_header_position object) in
  slice (symbol_table_position size) 18 object
    = bytes_of_IMAGE_SYMBOL host startSymbol /\
  (PointerToSymbolTable file_header = Z.of_nat (symbol_table_position size)
   <-> size <= UINT_MAX - 63) /\
  (SizeOfRawData section_header = size + Z.of_nat (padding_count size)
   <-> size <= UINT_MAX - 3) /\
  (UINT_MAX - 3 < size -> SizeOfRawData section_header = 0).
Proof.
  intros Hsize Hdata object file_header section_header.
  destruct (pad_excess size Hsize) as [Hmod Hrange].
  assert (Hcount : Z.of_nat (padding_count size) = (- size) mod 4).
  { unfold padding_count. rewrite Z2Nat.id by lia. exact Hmod. }
  assert (Hpos : Z.of_nat (symbol_table_position size)
                 = 60 + size + (- size) mod 4).
  { unfold symbol_table_position, raw_data_position. lia. }
  assert (Haligned : (size + (- size) mod 4) mod 4 = 0).
  { rewrite Z.add_mod_idemp_r by lia.
    replace (size + - size) with 0 by lia. reflexivity. }
  pose proof (Z.div_mod (size + (- size) mod 4) 4 ltac:(lia)) as Hq.
  rewrite Haligned in Hq.
  pose proof (Z.mod_pos_bound (- size) 4 ltac:(lia)) as Hk.
  assert (Hptr : PointerToSymbolTable file_header = to_uint32 (60 + pad size)).
  { unfold file_header, object. rewrite object_file_header. reflexivity. }
  assert (Hsz : SizeOfRawData section_header = pad size).
  { unfold section_header, object. rewrite object_section_header.
    reflexivity. }
  assert (Hwrap : UINT_MAX - 3 < size -> pad size = 0).
  { unfold UINT_MAX. intros H. rewrite pad_div.
    assert (E : to_uint32 (size + 3) = size + 3 - 2 ^ 32).
    { unfold to_uint32, to_unsigned. symmetry.
      apply (Z.mod_unique (size + 3) (2 ^ 32) 1); lia. }
    rewrite E. rewrite Z.div_small by lia. reflexivity. }
  refine (conj _ (conj _ (conj _ _))).
  - unfold slice, object. rewrite object_from_symbol_table by assumption.
    apply firstn_app_length, length_bytes_of_IMAGE_SYMBOL.
  - rewrite Hptr, Hpos. pose proof (to_uint32_range (60 + pad size)) as Hr.
    unfold UINT_MAX. split.
    + intros E.
      destruct (Z_le_gt_dec size (4294967295 - 63)) as [Hle | Hgt];
        [exact Hle | exfalso; lia].
    + intros Hle.
      destruct (padding_count_no_wrap size ltac:(unfold UINT_MAX; lia))
        as [Hc Hp].
      rewrite to_uint32_small by lia. lia.
  - rewrite Hsz. unfold UINT_MAX. split.
    + intros E.
      destruct (Z_le_gt_dec size (4294967295 - 3)) as [Hle | Hgt];
        [exact Hle|].
      exfalso. rewrite Hwrap in E by (unfold UINT_MAX; lia). lia.
    + intros Hle.
      destruct (padding_count_no_wrap size ltac:(unfold UINT_MAX; lia))
        as [Hc Hp].
      lia.
  - intros H. rewrite Hsz. apply Hwrap, H.
Qed.

Lemma header_fields_describe_the_object_up_to_witness :
  let object :=
    emitted []
      (writeObject LittleEndian [170; 170; 170; 170; 170] 5 []
         "_binary_start" "_binary_end" ".text"
         IMAGE_FILE_MACHINE_AMD64 0 0x60300020) in
  PointerToSymbolTable (parse_IMAGE_FILE_HEADER LittleEndian object) = 68 /\
  slice 68 18 object
    = [0; 0; 0; 0; 4; 0; 0; 0; 0; 0; 0; 0; 1; 0; 0; 0; 2; 0].
Proof.
  pose proof (header_fields_describe_the_object_up_to LittleEndian
                [170; 170; 170; 170; 170] 5 []
                "_binary_start" "_binary_end" ".text"
                IMAGE_FILE_MACHINE_AMD64 0 0x60300020
                ltac:(lia) ltac:(simpl; lia)) as H.
  cbv zeta in H. destruct H as (H1 & H2 & _).
  split.
  - exact (proj2 H2 ltac:(unfold UINT_MAX; lia)).
  - exact H1.
Defined.
